(** * Subtitle construction of the transcription app (app.py)

    A shallow embedding of the three pure functions of [app.py] that turn
    recognition segments into subtitle text:

    - [create_subtitle_timestamps]  (app.py, lines 38-51)
    - [generate_srt_content]        (app.py, lines 53-60)
    - [generate_vtt_content]        (app.py, lines 62-68)

    together with the pieces of the Python runtime they call: [str] of an
    [int], the [%d] / [%0Nd] conversions, [str.replace], slicing [s[:n]],
    [str.strip], and [datetime.timedelta] with its constructor and its
    [__str__].

    Conventions.  A Python [str] is a [string]; a character is a code point
    below 256.  A Python [int] is a [Z].  A Python [float] is a binary64
    number, a [spec_float] with precision 53.  The constructor
    [datetime.timedelta(seconds=x)] turns the float [x] into a whole number
    of microseconds, rounding to the nearest one ([seconds_to_microseconds]),
    and everything after that is integer arithmetic; the functions on
    segments take the offsets as that number of microseconds. *)

From Stdlib Require Import ZArith Lia List Bool Ascii String SpecFloat.
Import ListNotations.

Open Scope string_scope.
Open Scope Z_scope.

(* ================================================================= *)
(** ** Python strings *)

(** The line feed, written ["\n"] in the source. *)
Definition LF : string := String (ascii_of_N 10) EmptyString.

(** ['0' + d] for a digit value [d]. *)
Definition digit_char (d : Z) : ascii := ascii_of_N (48 + Z.to_N d).

Definition is_digit (c : ascii) : bool :=
  let n := N_of_ascii c in (48 <=? n)%N && (n <=? 57)%N.

(** Decimal digits of a non-negative integer, least significant digit
    first, pushed in front of [acc]; [fuel] bounds the number of digits. *)
Fixpoint decimal_digits (fuel : nat) (n : Z) (acc : string) : string :=
  match fuel with
  | O => acc
  | S fuel' =>
      let acc' := String (digit_char (n mod 10)) acc in
      if n <? 10 then acc' else decimal_digits fuel' (n / 10) acc'
  end.

(** A number has no more decimal digits than binary ones. *)
Definition digit_fuel (n : Z) : nat := S (Z.to_nat (Z.log2 n)).

Definition str_nonneg (n : Z) : string := decimal_digits (digit_fuel n) n "".

(** [str(z)], also ["%d" % z] and [f"{z}"], for an [int]. *)
Definition str_int (z : Z) : string :=
  if z <? 0 then String "-" (str_nonneg (- z)) else str_nonneg z.

Fixpoint zeros (k : nat) : string :=
  match k with
  | O => ""
  | S k' => String "0" (zeros k')
  end.

(** ["%0wd" % z]: the sign, then the digits padded with zeros on the left
    until the whole field is [w] characters wide. *)
Definition format_0d (w : nat) (z : Z) : string :=
  if z <? 0
  then let ds := str_nonneg (- z) in
       String "-" (zeros (w - 1 - length ds) ++ ds)
  else let ds := str_nonneg z in
       zeros (w - length ds) ++ ds.

(** Whether [p] is a prefix of [s]. *)
Fixpoint startswith (p s : string) : bool :=
  match p, s with
  | EmptyString, _ => true
  | String a p', String b s' => Ascii.eqb a b && startswith p' s'
  | String _ _, EmptyString => false
  end.

(** Left-to-right scan of [str.replace]: [skip] counts the characters of
    the current match of [old] that are still to be dropped. *)
Fixpoint replace_scan (old new : string) (skip : nat) (s : string) : string :=
  match s with
  | EmptyString => ""
  | String c s' =>
      match skip with
      | S k => replace_scan old new k s'
      | O =>
          if startswith old s
          then new ++ replace_scan old new (length old - 1) s'
          else String c (replace_scan old new 0 s')
      end
  end.

Fixpoint intersperse_after (new s : string) : string :=
  match s with
  | EmptyString => ""
  | String c s' => String c (new ++ intersperse_after new s')
  end.

(** [s.replace(old, new)]: every non-overlapping occurrence of [old],
    found from the left, becomes [new]; an empty [old] matches before
    every character and at the end. *)
Definition str_replace (old new s : string) : string :=
  match old with
  | EmptyString => new ++ intersperse_after new s
  | String _ _ => replace_scan old new 0 s
  end.

(** [s[:n]] for [n >= 0]: the first [n] characters, all of [s] when it is
    shorter. *)
Fixpoint slice_to (n : nat) (s : string) : string :=
  match n, s with
  | O, _ => ""
  | S _, EmptyString => ""
  | S n', String c s' => String c (slice_to n' s')
  end.

(** [c.isspace()] on the code points below 256: TAB, LF, VT, FF, CR, the
    separators FS, GS, RS, US, the space, NEL and the no-break space. *)
Definition isspace (c : ascii) : bool :=
  let n := N_of_ascii c in
  ((9 <=? n) && (n <=? 13) || (28 <=? n) && (n <=? 32)
   || (n =? 133) || (n =? 160))%N.

Fixpoint lstrip (s : string) : string :=
  match s with
  | EmptyString => ""
  | String c s' => if isspace c then lstrip s' else s
  end.

Fixpoint rstrip (s : string) : string :=
  match s with
  | EmptyString => ""
  | String c s' =>
      match rstrip s' with
      | EmptyString => if isspace c then "" else String c ""
      | String _ _ as r => String c r
      end
  end.

(** [s.strip()]: whitespace removed from both ends. *)
Definition strip (s : string) : string := rstrip (lstrip s).

(* ================================================================= *)
(** ** [datetime.timedelta] *)

(** A normalised [timedelta]: [0 <= seconds < 86400] and
    [0 <= microseconds < 1000000]; only [days] carries the sign. *)
Record timedelta : Type := mk_timedelta {
  days : Z;
  seconds : Z;
  microseconds : Z
}.

(** The last step of the constructor, on the total number of
    microseconds it has computed: two [divmod]s (Python's [divmod] rounds
    towards minus infinity, as [Z.div] and [Z.modulo] do for a positive
    divisor). *)
Definition microseconds_to_delta (us : Z) : timedelta :=
  let s := us / 1000000 in
  let us' := us mod 1000000 in
  let d := s / 86400 in
  let s' := s mod 86400 in
  {| days := d; seconds := s'; microseconds := us' |}.

(** The [plural] helper local to [timedelta.__str__]. *)
Definition plural (n : Z) : string :=
  if negb (Z.abs n =? 1) then "s" else "".

(** [timedelta.__str__]:
<<
    mm, ss = divmod(self._seconds, 60)
    hh, mm = divmod(mm, 60)
    s = "%d:%02d:%02d" % (hh, mm, ss)
    if self._days:
        s = ("%d day%s, " % plural(self._days)) + s
    if self._microseconds:
        s = s + ".%06d" % self._microseconds
    return s
>> *)
Definition timedelta_str (t : timedelta) : string :=
  let mm := seconds t / 60 in
  let ss := seconds t mod 60 in
  let hh := mm / 60 in
  let mm := mm mod 60 in
  let s := str_int hh ++ ":" ++ format_0d 2 mm ++ ":" ++ format_0d 2 ss in
  let s :=
    if negb (days t =? 0)
    then (str_int (days t) ++ " day" ++ plural (days t) ++ ", ") ++ s
    else s in
  let s :=
    if negb (microseconds t =? 0)
    then s ++ "." ++ format_0d 6 (microseconds t)
    else s in
  s.

(* ================================================================= *)
(** ** [datetime.timedelta(seconds=x)] for a float [x] *)

(** The binary64 format. *)
Definition prec : Z := 53.
Definition emax : Z := 1024.

(** C's [modf] on a finite double [m * 2^e] with sign [s]: the integral
    part, which [PyLong_FromDouble] turns into an [int] without loss, and
    the fractional part, a double of the same sign.  Both are exact. *)
Definition modf (x : spec_float) : Z * spec_float :=
  match x with
  | S754_finite s m e =>
      if 0 <=? e
      then (cond_Zopp s (Zpos m * 2 ^ e), S754_zero s)
      else
        let unit := 2 ^ (- e) in
        (cond_Zopp s (Zpos m / unit),
         match Zpos m mod unit with
         | Zpos r => S754_finite s r e
         | _ => S754_zero s
         end)
  | _ => (0, x)
  end.

(** What the constructor adds to the integer [x] for the fraction of a
    microsecond left over, a double strictly between -1 and 1: the
    nearest integer, and on a tie the one that makes the sum even. *)
Definition round_leftover (x : Z) (leftover : spec_float) : Z :=
  match leftover with
  | S754_finite s r e =>
      match 2 * Zpos r ?= 2 ^ (- e) with
      | Lt => 0
      | Gt => cond_Zopp s 1
      | Eq => if Z.odd x then cond_Zopp s 1 else 0
      end
  | _ => 0
  end.

(** The number of microseconds the constructor computes for the float
    [num] of seconds: the integral part times 1000000, without loss, then
    the fractional part times [1e6] in double arithmetic ([SFmul]), split
    again and rounded.  [None] stands for the exception raised on a NaN
    or an infinity. *)
Definition seconds_to_microseconds (num : spec_float) : option Z :=
  match num with
  | S754_nan | S754_infinity _ => None
  | _ =>
      let (intpart, fracpart) := modf num in
      let sum := 0 + intpart * 1000000 in
      match fracpart with
      | S754_finite _ _ _ =>
          let dnum := SFmul prec emax (S754_finite false 1000000 0) fracpart in
          let (intpart, fracpart) := modf dnum in
          let x := sum + intpart in
          Some (x + round_leftover x fracpart)
      | _ => Some sum
      end
  end.

(** [datetime.timedelta(seconds=num)]; [None] stands for the exception:
    [OverflowError] also when the day count leaves
    [-999999999 .. 999999999]. *)
Definition timedelta_seconds (num : spec_float) : option timedelta :=
  match seconds_to_microseconds num with
  | None => None
  | Some us =>
      let t := microseconds_to_delta us in
      if Z.abs (days t) <=? 999999999 then Some t else None
  end.

(* ================================================================= *)
(** ** app.py *)

(** A segment of the recognition result: [segment['start']] and
    [segment['end']], as the numbers of microseconds the constructor
    computes for them ([seconds_to_microseconds]), and [segment['text']]. *)
Record Segment : Type := mk_segment {
  seg_start : Z;
  seg_end : Z;
  seg_text : string
}.

(** A subtitle dictionary [{'index': .., 'start': .., 'end': .., 'text': ..}]. *)
Record Cue : Type := mk_cue {
  index : Z;
  start : string;
  end_ : string;
  text : string
}.

(** The timestamp expression of lines 42/47 and 43/48, the same for the
    start and for the end of a segment:
    [str(datetime.timedelta(seconds=x)).replace('.', ',')[:11]],
    here from the number [x] of microseconds the constructor has
    computed. *)
Definition subtitle_timestamp (x : Z) : string :=
  let t := microseconds_to_delta x in
  slice_to 11 (str_replace "." "," (timedelta_str t)).

(** The same expression from the float [seconds] the segment holds;
    [None] stands for the exception of the constructor. *)
Definition timestamp_formatter (seconds : spec_float) : option string :=
  match timedelta_seconds seconds with
  | None => None
  | Some t => Some (slice_to 11 (str_replace "." "," (timedelta_str t)))
  end.

(** The body of the loop of [create_subtitle_timestamps] for one pair
    [(i, segment)] of the enumeration: the dictionary that is appended. *)
Definition subtitle_entry (i : Z) (segment : Segment) : Cue :=
  let start := subtitle_timestamp (seg_start segment) in
  let end_ := subtitle_timestamp (seg_end segment) in
  let text := strip (seg_text segment) in
  {| index := i; start := start; end_ := end_; text := text |}.

(** [for i, segment in enumerate(segments, i): subs.append({...})]. *)
Fixpoint subtitle_loop (i : Z) (segments : list Segment) (subs : list Cue)
  : list Cue :=
  match segments with
  | [] => subs
  | segment :: rest =>
      subtitle_loop (i + 1) rest (subs ++ [subtitle_entry i segment])
  end.

Definition create_subtitle_timestamps (segments : list Segment) : list Cue :=
  subtitle_loop 1 segments [].

(** One turn of the loop of [generate_srt_content]: three [+=]. *)
Definition srt_append (srt_content : string) (sub : Cue) : string :=
  let srt_content := srt_content ++ (str_int (index sub) ++ LF) in
  let srt_content :=
    srt_content ++ (start sub ++ " --> " ++ end_ sub ++ LF) in
  let srt_content := srt_content ++ (text sub ++ LF ++ LF) in
  srt_content.

Definition generate_srt_content (subtitles : list Cue) : string :=
  fold_left srt_append subtitles "".

(** One turn of the loop of [generate_vtt_content]: two [+=]. *)
Definition vtt_append (vtt_content : string) (sub : Cue) : string :=
  let vtt_content :=
    vtt_content ++ (start sub ++ " --> " ++ end_ sub ++ LF) in
  let vtt_content := vtt_content ++ (text sub ++ LF ++ LF) in
  vtt_content.

Definition generate_vtt_content (subtitles : list Cue) : string :=
  fold_left vtt_append subtitles ("WEBVTT" ++ LF ++ LF).

(* ================================================================= *)
(** ** Reference renderings the program is compared with *)

(** A field of exactly [w] decimal digits: the [w] low digits of [n]. *)
Fixpoint fixed_digits (w : nat) (n : Z) : string :=
  match w with
  | O => ""
  | S w' => fixed_digits w' (n / 10) ++ String (digit_char (n mod 10)) ""
  end.

(** Reading a decimal numeral back, most significant digit first. *)
Definition digit_value (c : ascii) : Z := Z.of_N (N_of_ascii c) - 48.

Fixpoint decimal_value (acc : Z) (s : string) : Z :=
  match s with
  | EmptyString => acc
  | String c s' => decimal_value (10 * acc + digit_value c) s'
  end.

(** Character-wise substitution. *)
Fixpoint map_chars (f : ascii -> ascii) (s : string) : string :=
  match s with
  | EmptyString => ""
  | String c s' => String (f c) (map_chars f s')
  end.

Definition dot_to_comma (c : ascii) : ascii :=
  if Ascii.eqb c "." then ","%char else c.

Fixpoint has_char (c : ascii) (s : string) : bool :=
  match s with
  | EmptyString => false
  | String a s' => Ascii.eqb a c || has_char c s'
  end.

Fixpoint all_chars (p : ascii -> bool) (s : string) : bool :=
  match s with
  | EmptyString => true
  | String a s' => p a && all_chars p s'
  end.

Definition first_char (s : string) : option ascii :=
  match s with
  | EmptyString => None
  | String c _ => Some c
  end.

Fixpoint last_char (s : string) : option ascii :=
  match s with
  | EmptyString => None
  | String c EmptyString => Some c
  | String _ s' => last_char s'
  end.

Definition not_space (o : option ascii) : Prop :=
  match o with
  | None => True
  | Some c => isspace c = false
  end.

(** The clock fields of a seconds offset of [x] microseconds: whole hours,
    minutes of the hour, seconds of the minute, and whole milliseconds of
    the second. *)
Definition clock_hours (x : Z) : Z := x / 3600000000.
Definition clock_minutes (x : Z) : Z := x / 60000000 mod 60.
Definition clock_seconds (x : Z) : Z := x / 1000000 mod 60.
Definition clock_millis (x : Z) : Z := x / 1000 mod 1000.

(** Characters of a clock reading without fraction. *)
Definition clock_char (c : ascii) : bool := is_digit c || Ascii.eqb c ":".

(** The rendering the specification describes for a seconds offset: the
    duration's string with ['.'] replaced by [','], cut to its first
    [width] characters. *)
Definition rendered_seconds (width : nat) (seconds : spec_float)
  : option string :=
  match timedelta_seconds seconds with
  | None => None
  | Some t => Some (substring 0 width (map_chars dot_to_comma (timedelta_str t)))
  end.

(** Recogniser of [digits ':' digits ':' digits ',' digit digit digit]. *)
Fixpoint drop_digits (s : string) : string :=
  match s with
  | EmptyString => ""
  | String c s' => if is_digit c then drop_digits s' else s
  end.

Definition some_digits (s : string) : option string :=
  match s with
  | EmptyString => None
  | String c s' => if is_digit c then Some (drop_digits s') else None
  end.

Definition one_char (c : ascii) (s : string) : option string :=
  match s with
  | EmptyString => None
  | String a s' => if Ascii.eqb a c then Some s' else None
  end.

Definition three_digits (s : string) : bool :=
  match s with
  | String a (String b (String c EmptyString)) =>
      is_digit a && is_digit b && is_digit c
  | _ => false
  end.

Definition and_then {A B : Type} (o : option A) (k : A -> option B)
  : option B :=
  match o with
  | None => None
  | Some a => k a
  end.

Definition matches_timestamp_pattern (s : string) : bool :=
  match
    and_then (some_digits s) (fun s =>
    and_then (one_char ":" s) (fun s =>
    and_then (some_digits s) (fun s =>
    and_then (one_char ":" s) (fun s =>
    and_then (some_digits s) (fun s =>
    one_char "," s)))))
  with
  | None => false
  | Some ms => three_digits ms
  end.

(** The block of one cue in an SRT document and in a VTT document. *)
Definition srt_block (sub : Cue) : string :=
  str_int (index sub) ++ LF ++
  start sub ++ " --> " ++ end_ sub ++ LF ++
  text sub ++ LF ++ LF.

Definition vtt_block (sub : Cue) : string :=
  start sub ++ " --> " ++ end_ sub ++ LF ++
  text sub ++ LF ++ LF.

Definition concat_blocks (block : Cue -> string) (subtitles : list Cue)
  : string :=
  fold_right (fun sub rest => block sub ++ rest) "" subtitles.

(* ================================================================= *)
(** ** Beyond ten hours, beyond one day, below zero *)

(** Whole days of an offset of [x] microseconds, its hour of the day and
    its hundredths of the second. *)
Definition whole_days (x : Z) : Z := x / 86400000000.
Definition day_hours (x : Z) : Z := x / 3600000000 mod 24.
Definition clock_centis (x : Z) : Z := x / 10000 mod 100.

(** What [timedelta.__str__] puts in front of the clock reading. *)
Definition day_prefix (d : Z) : string :=
  if d =? 0 then "" else str_int d ++ " day" ++ plural d ++ ", ".

(** Two adjacent cues folded into one: the text of the first one runs on
    with the blank line and the whole block of the second one. *)
Definition merged_cue (c1 c2 : Cue) : Cue :=
  {| index := index c1;
     start := start c1;
     end_ := end_ c1;
     text := text c1 ++ LF ++ LF ++
             str_int (index c2) ++ LF ++
             start c2 ++ " --> " ++ end_ c2 ++ LF ++ text c2 |}.

(* ================================================================= *)
(** ** From segments to subtitle text (app.py, lines 151, 178 and 179) *)

(** The lines that one segment, numbered [i], contributes to the SRT
    text and to the VTT text. *)
Definition srt_segment_block (i : Z) (seg : Segment) : string :=
  str_int i ++ LF ++
  subtitle_timestamp (seg_start seg) ++ " --> " ++
  subtitle_timestamp (seg_end seg) ++ LF ++
  strip (seg_text seg) ++ LF ++ LF.

Definition vtt_segment_block (seg : Segment) : string :=
  subtitle_timestamp (seg_start seg) ++ " --> " ++
  subtitle_timestamp (seg_end seg) ++ LF ++
  strip (seg_text seg) ++ LF ++ LF.

Fixpoint numbered_blocks (block : Z -> Segment -> string) (i : Z)
    (segs : list Segment) : string :=
  match segs with
  | [] => ""
  | seg :: rest => block i seg ++ numbered_blocks block (i + 1) rest
  end.

(* ================================================================= *)
(** ** The video test of the upload (app.py, line 134) *)

(** [c.lower()] on the code points below 256: the letters [A]-[Z] and the
    accented capitals U+00C0-U+00DE, the multiplication sign apart. *)
Definition lower_char (c : ascii) : ascii :=
  let n := N_of_ascii c in
  if ((65 <=? n) && (n <=? 90)
      || (192 <=? n) && (n <=? 222) && negb (n =? 215))%N
  then ascii_of_N (n + 32)
  else c.

Definition str_lower (s : string) : string := map_chars lower_char s.

(** [s.endswith(suffix)]. *)
Fixpoint endswith (s suffix : string) : bool :=
  String.eqb s suffix ||
  match s with
  | EmptyString => false
  | String _ s' => endswith s' suffix
  end.

(** [s.endswith(tuple)]: one of the suffixes fits. *)
Definition endswith_any (s : string) (suffixes : list string) : bool :=
  existsb (endswith s) suffixes.

Definition video_suffixes : list string := [".mp4"; ".avi"; ".mkv"; ".mov"].

(** [tmp_file_path.lower().endswith(('.mp4', '.avi', '.mkv', '.mov'))]:
    whether the upload goes through [extract_audio_from_video]. *)
Definition handled_as_video (tmp_file_path : string) : bool :=
  endswith_any (str_lower tmp_file_path) video_suffixes.

(* ================================================================= *)
(** ** Strings: basic facts *)

Lemma append_nil_r (s : string) : s ++ "" = s.
Proof. induction s as [|c s IH]; simpl; [reflexivity | now rewrite IH]. Qed.

Lemma append_assoc (a b c : string) : (a ++ b) ++ c = a ++ (b ++ c).
Proof. induction a as [|x a IH]; simpl; [reflexivity | now rewrite IH]. Qed.

Lemma length_append (a b : string) :
  length (a ++ b) = (length a + length b)%nat.
Proof. induction a as [|x a IH]; simpl; [reflexivity | now rewrite IH]. Qed.

Lemma length_zeros (k : nat) : length (zeros k) = k.
Proof. induction k as [|k IH]; simpl; [reflexivity | now rewrite IH]. Qed.

Lemma length_fixed_digits (w : nat) (n : Z) : length (fixed_digits w n) = w.
Proof.
  revert n. induction w as [|w IH]; intros n; simpl; [reflexivity|].
  rewrite length_append, IH. simpl. lia.
Qed.

Lemma length_slice_to (n : nat) (s : string) : (length (slice_to n s) <= n)%nat.
Proof.
  revert s. induction n as [|n IH]; intros [|c s]; simpl; try lia.
  specialize (IH s). lia.
Qed.

Lemma slice_to_short (n : nat) (s : string) :
  (length s <= n)%nat -> slice_to n s = s.
Proof.
  revert s. induction n as [|n IH]; intros [|c s]; simpl; intros H;
    try reflexivity; try lia.
  rewrite IH by lia. reflexivity.
Qed.

Lemma slice_to_substring (n : nat) (s : string) :
  slice_to n s = substring 0 n s.
Proof.
  revert s. induction n as [|n IH]; intros [|c s]; simpl; try reflexivity.
  now rewrite IH.
Qed.

Lemma map_chars_append (f : ascii -> ascii) (a b : string) :
  map_chars f (a ++ b) = map_chars f a ++ map_chars f b.
Proof. induction a as [|x a IH]; simpl; [reflexivity | now rewrite IH]. Qed.

Lemma map_chars_ext (f g : ascii -> ascii) (s : string) :
  (forall c, f c = g c) -> map_chars f s = map_chars g s.
Proof.
  intros E. induction s as [|c s IH]; simpl; [reflexivity|].
  now rewrite E, IH.
Qed.

(** Replacing a one-character pattern by a one-character string is a
    character-wise substitution. *)
Lemma str_replace_char (a b : ascii) (s : string) :
  str_replace (String a "") (String b "") s =
  map_chars (fun c => if Ascii.eqb a c then b else c) s.
Proof.
  unfold str_replace.
  induction s as [|c s IH]; simpl; [reflexivity|].
  destruct (Ascii.eqb a c); simpl; now rewrite IH.
Qed.

Lemma str_replace_dot_comma (s : string) :
  str_replace "." "," s = map_chars dot_to_comma s.
Proof.
  rewrite str_replace_char. apply map_chars_ext.
  intros c. unfold dot_to_comma. now rewrite (Ascii.eqb_sym c).
Qed.

(* ================================================================= *)
(** ** Decimal rendering *)

Lemma digit_range (d : Z) :
  0 <= d < 10 ->
  d = 0 \/ d = 1 \/ d = 2 \/ d = 3 \/ d = 4 \/
  d = 5 \/ d = 6 \/ d = 7 \/ d = 8 \/ d = 9.
Proof. lia. Qed.

Ltac each_digit d H :=
  let R := fresh "R" in
  pose proof (digit_range d H) as R;
  repeat (destruct R as [R | R]; [subst d | ]); [ .. | subst d].

Lemma is_digit_digit_char (d : Z) :
  0 <= d < 10 -> is_digit (digit_char d) = true.
Proof. intros H. each_digit d H; reflexivity. Qed.

Lemma digit_char_mod (n : Z) : is_digit (digit_char (n mod 10)) = true.
Proof. apply is_digit_digit_char, Z.mod_pos_bound. lia. Qed.

Lemma zeros_snoc (k : nat) : zeros k ++ "0" = String "0" (zeros k).
Proof. induction k as [|k IH]; simpl; [reflexivity | now rewrite IH]. Qed.

Lemma fixed_digits_zero (w : nat) : fixed_digits w 0 = zeros w.
Proof.
  induction w as [|w IH]; [reflexivity|].
  cbn [fixed_digits]. change (0 / 10) with 0. rewrite IH.
  change (digit_char (0 mod 10)) with "0"%char. apply zeros_snoc.
Qed.

(** Widening a field adds zeros on the left. *)
Lemma fixed_digits_pad (j k : nat) (n : Z) :
  0 <= n < 10 ^ Z.of_nat k ->
  fixed_digits (j + k) n = zeros j ++ fixed_digits k n.
Proof.
  revert n. induction k as [|k IH]; intros n H.
  - change (10 ^ Z.of_nat 0) with 1 in H.
    assert (n = 0) by lia. subst n.
    rewrite Nat.add_0_r, fixed_digits_zero. cbn [fixed_digits].
    now rewrite append_nil_r.
  - rewrite Nat.add_succ_r. cbn [fixed_digits].
    rewrite IH, append_assoc; [reflexivity|].
    rewrite Nat2Z.inj_succ, Z.pow_succ_r in H by lia.
    split; [apply Z.div_pos; lia | apply Z.div_lt_upper_bound; lia].
Qed.

Lemma decimal_digits_step (fuel : nat) (n : Z) (acc : string) :
  decimal_digits (S fuel) n acc =
  if n <? 10 then String (digit_char (n mod 10)) acc
  else decimal_digits fuel (n / 10) (String (digit_char (n mod 10)) acc).
Proof. reflexivity. Qed.

(** The digit loop produces the shortest field that holds [n]. *)
Lemma decimal_digits_fixed (fuel : nat) :
  forall (n : Z) (acc : string),
    0 <= n < 10 ^ Z.of_nat (S fuel) ->
    exists k : nat,
      (1 <= k <= S fuel)%nat /\
      n < 10 ^ Z.of_nat k /\
      (k = 1%nat \/ 10 ^ (Z.of_nat k - 1) <= n) /\
      decimal_digits (S fuel) n acc = fixed_digits k n ++ acc.
Proof.
  induction fuel as [|fuel IH]; intros n acc H.
  - exists 1%nat. change (10 ^ Z.of_nat 1) with 10 in *.
    cbn [decimal_digits].
    destruct (Z.ltb_spec n 10) as [_ | G]; [|lia].
    repeat split; try lia; try (now left).
  - rewrite decimal_digits_step.
    destruct (Z.ltb_spec n 10) as [L | G].
    + exists 1%nat. change (10 ^ Z.of_nat 1) with 10.
      repeat split; try lia; try (now left).
    + rewrite Nat2Z.inj_succ, Z.pow_succ_r in H by lia.
      destruct (IH (n / 10) (String (digit_char (n mod 10)) acc))
        as (k & Hk & Hlt & Hmin & Heq).
      { split; [apply Z.div_pos; lia | apply Z.div_lt_upper_bound; lia]. }
      exists (S k). rewrite Nat2Z.inj_succ, Z.pow_succ_r by lia.
      split; [lia|]. split.
      { pose proof (Z.div_mod n 10 ltac:(lia)).
        pose proof (Z.mod_pos_bound n 10 ltac:(lia)). lia. }
      split.
      { right. replace (Z.succ (Z.of_nat k) - 1) with (Z.of_nat k) by lia.
        destruct Hmin as [-> | Hmin].
        - change (10 ^ Z.of_nat 1) with 10. lia.
        - replace (Z.of_nat k) with (Z.succ (Z.of_nat k - 1)) by lia.
          rewrite Z.pow_succ_r by lia.
          pose proof (Z.div_mod n 10 ltac:(lia)).
          pose proof (Z.mod_pos_bound n 10 ltac:(lia)). lia. }
      rewrite Heq. cbn [fixed_digits]. now rewrite append_assoc.
Qed.

Lemma digit_fuel_enough (n : Z) :
  0 <= n -> n < 10 ^ Z.of_nat (digit_fuel n).
Proof.
  intros H. unfold digit_fuel.
  rewrite Nat2Z.inj_succ, Z2Nat.id by apply Z.log2_nonneg.
  destruct (Z.eq_dec n 0) as [-> | N]; [reflexivity|].
  pose proof (Z.log2_spec n ltac:(lia)) as [_ U].
  pose proof (Z.log2_nonneg n).
  eapply Z.lt_le_trans; [exact U|].
  apply Z.pow_le_mono_l. lia.
Qed.

(** [str] of a non-negative integer: its digits, no leading zero. *)
Lemma str_nonneg_fixed (n : Z) :
  0 <= n ->
  exists k : nat,
    (1 <= k)%nat /\
    n < 10 ^ Z.of_nat k /\
    (k = 1%nat \/ 10 ^ (Z.of_nat k - 1) <= n) /\
    str_nonneg n = fixed_digits k n.
Proof.
  intros H. unfold str_nonneg.
  pose proof (digit_fuel_enough n H) as B.
  unfold digit_fuel in *.
  destruct (decimal_digits_fixed _ n "" (conj H B))
    as (k & Hk & Hlt & Hmin & Heq).
  exists k. rewrite Heq, append_nil_r. repeat split; try assumption; lia.
Qed.

(** A zero-padded field that is wide enough is the fixed-width field. *)
Lemma format_0d_fixed (w : nat) (n : Z) :
  (1 <= w)%nat ->
  0 <= n < 10 ^ Z.of_nat w -> format_0d w n = fixed_digits w n.
Proof.
  intros Hw [H0 H1]. unfold format_0d.
  destruct (Z.ltb_spec n 0) as [L | _]; [lia|].
  destruct (str_nonneg_fixed n H0) as (k & Hk & Hlt & Hmin & Heq).
  rewrite Heq, length_fixed_digits.
  assert (k <= w)%nat as Hkw.
  { destruct Hmin as [-> | Hmin].
    - exact Hw.
    - assert (10 ^ (Z.of_nat k - 1) < 10 ^ Z.of_nat w) as P by lia.
      apply Z.pow_lt_mono_r_iff in P; lia. }
  rewrite <- fixed_digits_pad by lia.
  f_equal. lia.
Qed.

Lemma digit_value_digit_char (d : Z) :
  0 <= d < 10 -> digit_value (digit_char d) = d.
Proof. intros H. each_digit d H; reflexivity. Qed.

Lemma decimal_value_append (a b : string) :
  forall acc : Z,
    decimal_value acc (a ++ b) = decimal_value (decimal_value acc a) b.
Proof.
  induction a as [|c a IH]; intros acc; cbn; [reflexivity | apply IH].
Qed.

Lemma decimal_value_fixed (w : nat) :
  forall n acc : Z,
    decimal_value acc (fixed_digits w n) =
    acc * 10 ^ Z.of_nat w + n mod 10 ^ Z.of_nat w.
Proof.
  induction w as [|w IH]; intros n acc.
  - cbn [fixed_digits decimal_value]. change (10 ^ Z.of_nat 0) with 1.
    rewrite Z.mod_1_r. lia.
  - cbn [fixed_digits]. rewrite decimal_value_append, IH.
    cbn [decimal_value].
    rewrite digit_value_digit_char by (apply Z.mod_pos_bound; lia).
    rewrite Nat2Z.inj_succ, Z.pow_succ_r by lia.
    rewrite (Z.rem_mul_r n 10 (10 ^ Z.of_nat w)) by lia.
    ring.
Qed.

(** [int(str(n)) == n]: the digits printed for [n] read back as [n]. *)
Lemma str_nonneg_value (n : Z) :
  0 <= n -> decimal_value 0 (str_nonneg n) = n.
Proof.
  intros H.
  destruct (str_nonneg_fixed n H) as (k & _ & Hlt & _ & ->).
  rewrite decimal_value_fixed, Z.mod_small; lia.
Qed.

(** Below ten, [str] is the digit itself. *)
Lemma str_int_digit (n : Z) :
  0 <= n < 10 -> str_int n = String (digit_char n) "".
Proof. intros H. each_digit n H; reflexivity. Qed.

Lemma all_digits_fixed (w : nat) (n : Z) :
  all_chars is_digit (fixed_digits w n) = true.
Proof.
  revert n. induction w as [|w IH]; intros n; [reflexivity|].
  cbn [fixed_digits].
  assert (forall a b, all_chars is_digit a = true ->
            all_chars is_digit b = true ->
            all_chars is_digit (a ++ b) = true) as App.
  { intros a b Ha Hb. induction a as [|c a IHa]; simpl in *; [assumption|].
    apply andb_true_iff in Ha as [-> Ha]. simpl. now apply IHa. }
  apply App; [apply IH|]. simpl. now rewrite digit_char_mod.
Qed.

(* ================================================================= *)
(** ** The duration and its string *)

Lemma millis_field (x : Z) : x mod 1000000 / 10 / 10 / 10 = clock_millis x.
Proof. unfold clock_millis. Z.to_euclidean_division_equations; lia. Qed.

Section Clock.

Variable x : Z.
Hypothesis x_day : 0 <= x < 86400000000.

Lemma days_zero : days (microseconds_to_delta x) = 0.
Proof.
  unfold microseconds_to_delta; cbn [days].
  Z.to_euclidean_division_equations; lia.
Qed.

Lemma hours_field :
  seconds (microseconds_to_delta x) / 60 / 60 = clock_hours x.
Proof.
  unfold microseconds_to_delta, clock_hours; cbn [seconds].
  Z.to_euclidean_division_equations; lia.
Qed.

Lemma minutes_field :
  seconds (microseconds_to_delta x) / 60 mod 60 = clock_minutes x.
Proof.
  unfold microseconds_to_delta, clock_minutes; cbn [seconds].
  Z.to_euclidean_division_equations; lia.
Qed.

Lemma seconds_field :
  seconds (microseconds_to_delta x) mod 60 = clock_seconds x.
Proof.
  unfold microseconds_to_delta, clock_seconds; cbn [seconds].
  Z.to_euclidean_division_equations; lia.
Qed.

Lemma clock_hours_range : 0 <= clock_hours x < 24.
Proof. unfold clock_hours. Z.to_euclidean_division_equations; lia. Qed.

(** Under one day the duration's string is the clock reading, followed by
    the six-digit fraction when there is one. *)
Lemma timedelta_str_clock :
  timedelta_str (microseconds_to_delta x) =
  (str_int (clock_hours x) ++ ":" ++ fixed_digits 2 (clock_minutes x)
     ++ ":" ++ fixed_digits 2 (clock_seconds x))
  ++ (if x mod 1000000 =? 0 then ""
      else "." ++ fixed_digits 6 (x mod 1000000)).
Proof.
  unfold timedelta_str.
  rewrite days_zero, hours_field, minutes_field, seconds_field.
  cbn [negb Z.eqb].
  change (microseconds (microseconds_to_delta x)) with (x mod 1000000).
  rewrite (format_0d_fixed 2 (clock_minutes x)),
    (format_0d_fixed 2 (clock_seconds x)).
  - destruct (x mod 1000000 =? 0); cbn [negb].
    + now rewrite append_nil_r.
    + rewrite format_0d_fixed; [reflexivity | lia |].
      change (10 ^ Z.of_nat 6) with 1000000.
      apply Z.mod_pos_bound; lia.
  - lia.
  - change (10 ^ Z.of_nat 2) with 100. unfold clock_seconds.
    pose proof (Z.mod_pos_bound (x / 1000000) 60 ltac:(lia)). lia.
  - lia.
  - change (10 ^ Z.of_nat 2) with 100. unfold clock_minutes.
    pose proof (Z.mod_pos_bound (x / 60000000) 60 ltac:(lia)). lia.
Qed.

End Clock.

(* ================================================================= *)
(** ** The timestamp expression *)

Lemma dot_to_comma_digit (c : ascii) :
  is_digit c = true -> dot_to_comma c = c.
Proof.
  destruct c as [[] [] [] [] [] [] [] []]; intros H;
    try reflexivity; discriminate H.
Qed.

Lemma dot_to_comma_digit_char (n : Z) :
  dot_to_comma (digit_char (n mod 10)) = digit_char (n mod 10).
Proof. apply dot_to_comma_digit, digit_char_mod. Qed.

(** Under ten hours and with a fraction, the timestamp is the hour digit,
    two minute digits, two second digits and the three millisecond
    digits: the slice drops the last three of the six fraction digits. *)
Lemma fraction_timestamp (x : Z) :
  0 <= x < 36000000000 ->
  x mod 1000000 <> 0 ->
  subtitle_timestamp x =
  String (digit_char (clock_hours x))
    (":" ++ fixed_digits 2 (clock_minutes x) ++
     ":" ++ fixed_digits 2 (clock_seconds x) ++
     "," ++ fixed_digits 3 (clock_millis x)).
Proof.
  intros Hx Hf. unfold subtitle_timestamp.
  rewrite timedelta_str_clock by lia.
  destruct (Z.eqb_spec (x mod 1000000) 0) as [E | _]; [contradiction|].
  assert (0 <= clock_hours x < 10) as Hh
    by (unfold clock_hours; Z.to_euclidean_division_equations; lia).
  rewrite str_int_digit by exact Hh.
  rewrite str_replace_dot_comma.
  cbn [fixed_digits append map_chars].
  rewrite !dot_to_comma_digit_char.
  rewrite (dot_to_comma_digit (digit_char (clock_hours x)))
    by now apply is_digit_digit_char.
  change (dot_to_comma ":") with ":"%char.
  change (dot_to_comma ".") with ","%char.
  cbn [slice_to].
  rewrite <- (millis_field x).
  reflexivity.
Qed.

Lemma all_chars_append (p : ascii -> bool) (a b : string) :
  all_chars p (a ++ b) = all_chars p a && all_chars p b.
Proof.
  induction a as [|c a IH]; simpl; [reflexivity|].
  now rewrite IH, andb_assoc.
Qed.

Lemma all_chars_weaken (p q : ascii -> bool) (s : string) :
  (forall c, p c = true -> q c = true) ->
  all_chars p s = true -> all_chars q s = true.
Proof.
  intros W. induction s as [|c s IH]; simpl; [reflexivity|].
  intros H. apply andb_true_iff in H as [Hc Hs].
  now rewrite (W c Hc), IH.
Qed.

Lemma clock_char_not_dot (c : ascii) :
  clock_char c = true -> dot_to_comma c = c.
Proof.
  destruct c as [[] [] [] [] [] [] [] []]; intros H;
    try reflexivity; discriminate H.
Qed.

Lemma clock_char_not_comma (c : ascii) :
  clock_char c = true -> Ascii.eqb c "," = false.
Proof.
  destruct c as [[] [] [] [] [] [] [] []]; intros H;
    try reflexivity; discriminate H.
Qed.

Lemma clock_chars_keep (s : string) :
  all_chars clock_char s = true -> map_chars dot_to_comma s = s.
Proof.
  induction s as [|c s IH]; simpl; [reflexivity|].
  intros H. apply andb_true_iff in H as [Hc Hs].
  now rewrite (clock_char_not_dot c Hc), IH.
Qed.

Lemma clock_chars_no_comma (s : string) :
  all_chars clock_char s = true -> has_char "," s = false.
Proof.
  induction s as [|c s IH]; simpl; [reflexivity|].
  intros H. apply andb_true_iff in H as [Hc Hs].
  now rewrite (clock_char_not_comma c Hc), IH.
Qed.

Lemma clock_chars_fixed (w : nat) (n : Z) :
  all_chars clock_char (fixed_digits w n) = true.
Proof.
  apply (all_chars_weaken is_digit); [|apply all_digits_fixed].
  intros c H. unfold clock_char. now rewrite H.
Qed.

(** An hour count below 24 prints as one or two digits. *)
Lemma str_int_hours (h : Z) :
  0 <= h < 24 ->
  exists k : nat, (k = 1 \/ k = 2)%nat /\ str_int h = fixed_digits k h.
Proof.
  intros H. unfold str_int.
  destruct (Z.ltb_spec h 0) as [L | _]; [lia|].
  destruct (str_nonneg_fixed h ltac:(lia)) as (k & Hk & Hlt & Hmin & Heq).
  exists k. split; [|exact Heq].
  destruct Hmin as [-> | Hmin]; [now left|].
  assert (10 ^ (Z.of_nat k - 1) < 10 ^ 2) as P
    by (change (10 ^ 2) with 100; lia).
  apply Z.pow_lt_mono_r_iff in P; lia.
Qed.

(** Under one day and without a fraction, the timestamp is the bare clock
    reading: nothing is replaced and nothing is cut. *)
Lemma whole_timestamp (x : Z) :
  0 <= x < 86400000000 ->
  x mod 1000000 = 0 ->
  subtitle_timestamp x =
    str_int (clock_hours x) ++ ":" ++ fixed_digits 2 (clock_minutes x)
      ++ ":" ++ fixed_digits 2 (clock_seconds x)
  /\ all_chars clock_char (subtitle_timestamp x) = true
  /\ (length (subtitle_timestamp x) = 7 \/
      length (subtitle_timestamp x) = 8)%nat.
Proof.
  intros Hx Hf. unfold subtitle_timestamp.
  rewrite timedelta_str_clock by lia.
  rewrite Hf. cbn [Z.eqb]. rewrite append_nil_r.
  destruct (str_int_hours (clock_hours x) (clock_hours_range x Hx))
    as (k & Hk & ->).
  set (s := fixed_digits k (clock_hours x) ++ ":" ++
            fixed_digits 2 (clock_minutes x) ++ ":" ++
            fixed_digits 2 (clock_seconds x)).
  assert (all_chars clock_char s = true) as Hc.
  { unfold s. rewrite !all_chars_append, !clock_chars_fixed. reflexivity. }
  assert (length s = k + 6)%nat as Hl.
  { unfold s. rewrite !length_append, !length_fixed_digits. simpl. lia. }
  rewrite str_replace_dot_comma, (clock_chars_keep s Hc).
  rewrite slice_to_short by lia.
  repeat split; [exact Hc | lia].
Qed.

(* ================================================================= *)
(** ** From the float to the stored microseconds *)

Lemma stored_days_in_range (x : Z) :
  - 86400000000 <= x < 86400000000000000000 ->
  (Z.abs (days (microseconds_to_delta x)) <=? 999999999) = true.
Proof.
  intros H. apply Z.leb_le. unfold microseconds_to_delta; cbn [days].
  Z.to_euclidean_division_equations; lia.
Qed.

(** When the constructor computes [x] microseconds for the float [d], and
    [x] is within the days a duration can hold, the timestamp of [d] is
    the timestamp of [x]. *)
Lemma timestamp_formatter_stored (d : spec_float) (x : Z) :
  seconds_to_microseconds d = Some x ->
  - 86400000000 <= x < 86400000000000000000 ->
  timedelta_seconds d = Some (microseconds_to_delta x) /\
  timestamp_formatter d = Some (subtitle_timestamp x).
Proof.
  intros C R. unfold timestamp_formatter, timedelta_seconds.
  rewrite C. cbv zeta. rewrite (stored_days_in_range x R). now split.
Qed.

(** Every finite float has a number of microseconds. *)
Lemma finite_seconds_convert (s : bool) (m : positive) (e : Z) :
  exists x : Z, seconds_to_microseconds (S754_finite s m e) = Some x.
Proof.
  unfold seconds_to_microseconds.
  destruct (modf (S754_finite s m e)) as [i [| | | s' m' e']];
    try (eexists; reflexivity).
  destruct (modf _) as [i' f']. eexists; reflexivity.
Qed.

(** A float without fractional part, a whole number [i] of seconds,
    is converted without rounding: to [i * 1000000] microseconds. *)
Lemma whole_seconds_convert (s s' : bool) (m : positive) (e i : Z) :
  modf (S754_finite s m e) = (i, S754_zero s') ->
  seconds_to_microseconds (S754_finite s m e) = Some (i * 1000000).
Proof.
  intros H. unfold seconds_to_microseconds. rewrite H. reflexivity.
Qed.

(* ================================================================= *)
(** ** Timestamp Formatter: the claims *)

(** C1.  The code at one second, the double [0x1p+0]: the timestamp is
    ["0:00:01"], which has no comma and no millisecond digits and is not
    of the form digits ':' digits ':' digits ',' three digits; at one
    second and a half, [0x1.8p+0], the same expression gives
    ["0:00:01,500"], which is of that form. *)
Theorem one_second_has_no_millisecond_group :
  timestamp_formatter (S754_finite false 4503599627370496 (-52)) =
    Some "0:00:01" /\
  matches_timestamp_pattern "0:00:01" = false /\
  timestamp_formatter (S754_finite false 6755399441055744 (-52)) =
    Some "0:00:01,500" /\
  matches_timestamp_pattern "0:00:01,500" = true.
Proof. repeat split; vm_compute; reflexivity. Qed.

(** C2, as amended.  For every duration the formatted timestamp is the
    duration's string with ['.'] replaced by [','], cut to its first 11
    characters; it is there for every non-negative duration that the
    duration type can hold, that is under 1000000000 days. *)
Theorem timestamp_is_rendering_cut_at_11 (d : spec_float) :
  timestamp_formatter d = rendered_seconds 11 d /\
  (forall x : Z,
     seconds_to_microseconds d = Some x ->
     0 <= x < 86400000000000000000 ->
     timestamp_formatter d =
     Some (substring 0 11
             (map_chars dot_to_comma
                (timedelta_str (microseconds_to_delta x))))).
Proof.
  assert (timestamp_formatter d = rendered_seconds 11 d) as E.
  { unfold timestamp_formatter, rendered_seconds.
    destruct (timedelta_seconds d) as [t|]; [|reflexivity].
    now rewrite str_replace_dot_comma, slice_to_substring. }
  split; [exact E|].
  intros x C R. rewrite E. unfold rendered_seconds.
  destruct (timestamp_formatter_stored d x C ltac:(lia)) as [-> _].
  reflexivity.
Qed.

Lemma timestamp_is_rendering_cut_at_11_witness :
  timestamp_formatter (S754_finite false 6755399441055744 (-52)) =
  Some "0:00:01,500".
Proof.
  destruct (timestamp_is_rendering_cut_at_11
              (S754_finite false 6755399441055744 (-52))) as [_ S].
  rewrite (S 1500000); [reflexivity | reflexivity | lia].
Defined.

(** C2 as stated fails at one second and a half, the double [0x1.8p+0]:
    cutting at 12 characters keeps a fourth fraction digit, the program
    keeps three. *)
Lemma cut_at_12_differs :
  timestamp_formatter (S754_finite false 6755399441055744 (-52)) =
    Some "0:00:01,500" /\
  rendered_seconds 12 (S754_finite false 6755399441055744 (-52)) =
    Some "0:00:01,5000" /\
  timestamp_formatter (S754_finite false 6755399441055744 (-52)) <>
    rendered_seconds 12 (S754_finite false 6755399441055744 (-52)).
Proof.
  split; [reflexivity|]. split; [reflexivity|].
  intros E. vm_compute in E. discriminate E.
Qed.

(** C9, as amended.  For every non-negative duration under one day that
    is a whole number of seconds, the formatted timestamp is the bare
    clock reading [H:MM:SS] or [HH:MM:SS]: 7 or 8 characters, digits and
    colons only, no comma and no millisecond group; one second gives the
    7 characters ["0:00:01"]. *)
Theorem whole_seconds_have_no_fraction (x : Z) :
  0 <= x < 86400000000 ->
  x mod 1000000 = 0 ->
  subtitle_timestamp x =
    str_int (clock_hours x) ++ ":" ++ fixed_digits 2 (clock_minutes x)
      ++ ":" ++ fixed_digits 2 (clock_seconds x)
  /\ has_char "," (subtitle_timestamp x) = false
  /\ all_chars clock_char (subtitle_timestamp x) = true
  /\ (length (subtitle_timestamp x) = 7 \/
      length (subtitle_timestamp x) = 8)%nat
  /\ subtitle_timestamp 1000000 = "0:00:01".
Proof.
  intros Hx Hf.
  destruct (whole_timestamp x Hx Hf) as (E & C & L).
  repeat split; try assumption.
  now apply clock_chars_no_comma.
Qed.

Lemma whole_seconds_have_no_fraction_witness :
  subtitle_timestamp 3723000000 = "1:02:03" /\
  has_char "," (subtitle_timestamp 3723000000) = false.
Proof.
  destruct (whole_seconds_have_no_fraction 3723000000
              ltac:(lia) ltac:(reflexivity)) as (E & C & _).
  split; [rewrite E; reflexivity | exact C].
Defined.

(** C9 as stated fails at one day: the timestamp is ["1 day, 0:00"],
    which contains the comma of the day count. *)
Lemma one_day_has_comma :
  0 <= 86400000000 /\
  86400000000 mod 1000000 = 0 /\
  subtitle_timestamp 86400000000 = "1 day, 0:00" /\
  has_char "," (subtitle_timestamp 86400000000) = true.
Proof. repeat split; try reflexivity. lia. Qed.

(** C10, as amended.  For every duration that the duration type stores,
    rounded to the nearest microsecond, as a non-negative value under ten
    hours with a microsecond part that is not zero, the formatted
    timestamp has exactly 11 characters: one hour digit, not padded, then
    [:MM:SS] and a comma followed by exactly three millisecond digits;
    one second and a half gives ["0:00:01,500"]. *)
Theorem fraction_under_ten_hours (d : spec_float) (x : Z) :
  seconds_to_microseconds d = Some x ->
  0 <= x < 36000000000 ->
  x mod 1000000 <> 0 ->
  exists s : string,
    timestamp_formatter d = Some s /\
    length s = 11%nat /\
    s = String (digit_char (clock_hours x))
          (":" ++ fixed_digits 2 (clock_minutes x) ++
           ":" ++ fixed_digits 2 (clock_seconds x) ++
           "," ++ fixed_digits 3 (clock_millis x)) /\
    0 <= clock_hours x < 10 /\
    timestamp_formatter (S754_finite false 6755399441055744 (-52)) =
      Some "0:00:01,500".
Proof.
  intros C Hx Hf.
  destruct (timestamp_formatter_stored d x C ltac:(lia)) as [_ ->].
  exists (subtitle_timestamp x). rewrite (fraction_timestamp x Hx Hf).
  repeat split.
  - unfold clock_hours. Z.to_euclidean_division_equations; lia.
  - unfold clock_hours. Z.to_euclidean_division_equations; lia.
Qed.

Lemma fraction_under_ten_hours_witness :
  exists s : string,
    timestamp_formatter (S754_finite false 4947802324854561 (-37)) = Some s /\
    length s = 11%nat /\
    s = "9:59:59,999".
Proof.
  destruct (fraction_under_ten_hours
              (S754_finite false 4947802324854561 (-37)) 35999999999
              ltac:(reflexivity) ltac:(lia) ltac:(discriminate))
    as (s & E & L & S & _).
  exists s. split; [exact E|]. split; [exact L|].
  rewrite S. reflexivity.
Defined.

(** C10 as stated fails at 0.9999999 seconds, the double
    [0x1.fffffca501acbp-1]: its integral part is zero and its fractional
    part is the number itself, not zero, yet the constructor rounds it to
    1000000 microseconds and the timestamp is ["0:00:01"], 7 characters
    without comma. *)
Lemma fraction_rounded_away :
  modf (S754_finite false 9007198354021067 (-53)) =
    (0, S754_finite false 9007198354021067 (-53)) /\
  seconds_to_microseconds (S754_finite false 9007198354021067 (-53)) =
    Some 1000000 /\
  timestamp_formatter (S754_finite false 9007198354021067 (-53)) =
    Some "0:00:01" /\
  length "0:00:01" <> 11%nat.
Proof. repeat split; try reflexivity. discriminate. Qed.

(* ================================================================= *)
(** ** Stripping *)

Lemma lstrip_spec (s : string) :
  exists l : string,
    s = l ++ lstrip s /\
    all_chars isspace l = true /\
    not_space (first_char (lstrip s)).
Proof.
  induction s as [|c s (l & E & A & F)].
  - exists "". repeat split.
  - cbn [lstrip]. destruct (isspace c) eqn:W.
    + exists (String c l). cbn [append all_chars].
      rewrite <- E, W, A. repeat split. exact F.
    + exists "". repeat split. exact W.
Qed.

Lemma rstrip_spec (s : string) :
  exists r : string,
    s = rstrip s ++ r /\
    all_chars isspace r = true /\
    not_space (last_char (rstrip s)).
Proof.
  induction s as [|c s (r & E & A & L)].
  - exists "". repeat split.
  - cbn [rstrip]. destruct (rstrip s) as [|a t] eqn:R.
    + cbn [append] in E. subst r.
      destruct (isspace c) eqn:W.
      * exists (String c s). cbn [append all_chars].
        rewrite W, A. repeat split.
      * exists s. repeat split; [exact A | exact W].
    + exists r. cbn [append]. rewrite E at 1.
      repeat split; [exact A | exact L].
Qed.

Lemma first_char_rstrip (s : string) :
  not_space (first_char s) -> not_space (first_char (rstrip s)).
Proof.
  destruct s as [|c s]; [trivial|].
  cbn [rstrip first_char not_space]. intros W.
  destruct (rstrip s); [rewrite W|]; exact W.
Qed.

(** [strip] removes a run of whitespace at each end and leaves a string
    that neither starts nor ends with whitespace. *)
Lemma strip_spec (s : string) :
  exists l r : string,
    s = l ++ strip s ++ r /\
    all_chars isspace l = true /\
    all_chars isspace r = true /\
    not_space (first_char (strip s)) /\
    not_space (last_char (strip s)).
Proof.
  destruct (lstrip_spec s) as (l & El & Al & Fl).
  destruct (rstrip_spec (lstrip s)) as (r & Er & Ar & Lr).
  exists l, r. unfold strip.
  rewrite <- Er, <- El.
  repeat split; try assumption.
  now apply first_char_rstrip.
Qed.

(* ================================================================= *)
(** ** Cue Builder *)

Lemma subtitle_loop_acc (segments : list Segment) :
  forall (i : Z) (subs : list Cue),
    subtitle_loop i segments subs = (subs ++ subtitle_loop i segments [])%list.
Proof.
  induction segments as [|seg rest IH]; intros i subs; cbn [subtitle_loop].
  - now rewrite app_nil_r.
  - rewrite (IH (i + 1) (subs ++ _)%list), (IH (i + 1) ([] ++ _)%list).
    now rewrite <- app_assoc.
Qed.

Lemma subtitle_loop_cons (i : Z) (seg : Segment) (rest : list Segment) :
  subtitle_loop i (seg :: rest) [] =
  subtitle_entry i seg :: subtitle_loop (i + 1) rest [].
Proof. cbn [subtitle_loop]. now rewrite subtitle_loop_acc. Qed.

Lemma subtitle_loop_length (segments : list Segment) :
  forall i : Z,
    List.length (subtitle_loop i segments []) = List.length segments.
Proof.
  induction segments as [|seg rest IH]; intros i; [reflexivity|].
  rewrite subtitle_loop_cons. cbn [List.length]. now rewrite IH.
Qed.

(** The cue at each position is built from the segment at that position
    and from the running number of the enumeration. *)
Lemma subtitle_loop_nth (segments : list Segment) :
  forall (i : Z) (n : nat),
    nth_error (subtitle_loop i segments []) n =
    option_map (subtitle_entry (i + Z.of_nat n)) (nth_error segments n).
Proof.
  induction segments as [|seg rest IH]; intros i n.
  - destruct n; reflexivity.
  - rewrite subtitle_loop_cons. destruct n as [|n].
    + cbn. now rewrite Z.add_0_r.
    + cbn [nth_error]. rewrite IH. do 2 f_equal. lia.
Qed.

(** C3.  For every sequence of segments the Cue Builder returns as many
    cues as there are segments; the cue at position [i] (from 0) carries
    the index [i + 1] and is built from the segment at position [i]
    alone, so the map is 1:1 and keeps the order, with no filtering and
    no merging. *)
Theorem cue_builder_length_and_index (segs : list Segment) :
  List.length (create_subtitle_timestamps segs) = List.length segs /\
  (forall i : nat,
     nth_error (create_subtitle_timestamps segs) i =
     option_map (subtitle_entry (Z.of_nat i + 1)) (nth_error segs i)) /\
  (forall (i : nat) (c : Cue),
     nth_error (create_subtitle_timestamps segs) i = Some c ->
     index c = Z.of_nat i + 1).
Proof.
  unfold create_subtitle_timestamps.
  split; [apply subtitle_loop_length|].
  assert (forall i : nat,
            nth_error (subtitle_loop 1 segs []) i =
            option_map (subtitle_entry (Z.of_nat i + 1)) (nth_error segs i)) as N.
  { intros i. rewrite subtitle_loop_nth. now rewrite Z.add_comm. }
  split; [exact N|].
  intros i c H. rewrite N in H.
  destruct (nth_error segs i) as [seg|]; [|discriminate H].
  injection H as <-. reflexivity.
Qed.

Lemma cue_builder_length_and_index_witness :
  index (mk_cue 2 "0:00:01,200" "0:00:03" "there") = 2.
Proof.
  destruct (cue_builder_length_and_index
              [mk_segment 0 1200000 " hi ";
               mk_segment 1200000 3000000 "there"]) as (_ & _ & I).
  apply (I 1%nat). reflexivity.
Defined.

(** C4.  For every sequence of segments and every position [i], the cue
    at position [i] has the text of the segment at position [i] with the
    leading and the trailing whitespace stripped: the segment's text is
    the cue's text between two runs of whitespace, and the cue's text
    neither starts nor ends with whitespace. *)
Theorem cue_text_is_stripped (segs : list Segment) (i : nat) (seg : Segment) :
  nth_error segs i = Some seg ->
  exists c : Cue,
    nth_error (create_subtitle_timestamps segs) i = Some c /\
    text c = strip (seg_text seg) /\
    (exists l r : string,
       seg_text seg = l ++ text c ++ r /\
       all_chars isspace l = true /\
       all_chars isspace r = true) /\
    not_space (first_char (text c)) /\
    not_space (last_char (text c)).
Proof.
  intros H. exists (subtitle_entry (1 + Z.of_nat i) seg).
  unfold create_subtitle_timestamps.
  rewrite subtitle_loop_nth, H. cbn [option_map subtitle_entry text].
  destruct (strip_spec (seg_text seg)) as (l & r & E & Al & Ar & F & L).
  repeat split; try assumption.
  exists l, r. now repeat split.
Qed.

Lemma cue_text_is_stripped_witness :
  exists c : Cue,
    nth_error (create_subtitle_timestamps
                 [mk_segment 0 1200000 " hi ";
                  mk_segment 1200000 3000000 "there"]) 0 = Some c /\
    text c = "hi".
Proof.
  destruct (cue_text_is_stripped
              [mk_segment 0 1200000 " hi ";
               mk_segment 1200000 3000000 "there"]
              0%nat (mk_segment 0 1200000 " hi ") eq_refl)
    as (c & N & T & _).
  exists c. split; [exact N | exact T].
Defined.

(** The example of the specification: two segments give the indices 1
    and 2, in that order, with the trimmed texts. *)
Example cue_builder_example :
  create_subtitle_timestamps
    [mk_segment 0 1200000 " hi "; mk_segment 1200000 3000000 "there"] =
  [mk_cue 1 "0:00:00" "0:00:01,200" "hi";
   mk_cue 2 "0:00:01,200" "0:00:03" "there"].
Proof. reflexivity. Qed.

(* ================================================================= *)
(** ** Serializers *)

Lemma srt_append_block (acc : string) (sub : Cue) :
  srt_append acc sub = acc ++ srt_block sub.
Proof.
  unfold srt_append, srt_block. now rewrite !append_assoc.
Qed.

Lemma vtt_append_block (acc : string) (sub : Cue) :
  vtt_append acc sub = acc ++ vtt_block sub.
Proof.
  unfold vtt_append, vtt_block. now rewrite !append_assoc.
Qed.

(** A loop that appends one block per cue builds the concatenation of
    the blocks after what it started with. *)
Lemma fold_append_blocks (body : string -> Cue -> string)
    (block : Cue -> string) :
  (forall acc sub, body acc sub = acc ++ block sub) ->
  forall (subtitles : list Cue) (acc : string),
    fold_left body subtitles acc = acc ++ concat_blocks block subtitles.
Proof.
  intros B subtitles.
  induction subtitles as [|sub rest IH]; intros acc; cbn.
  - now rewrite append_nil_r.
  - now rewrite IH, B, append_assoc.
Qed.

(** C5.  For every sequence of cues the SRT output is the concatenation,
    cue by cue and in order, of the block
    [index LF start " --> " end LF text LF LF]; for the single cue
    [{1, "00:00:01,000", "00:00:02,500", "Hello"}] it is exactly
    ["1\n00:00:01,000 --> 00:00:02,500\nHello\n\n"]. *)
Theorem srt_is_concatenated_blocks (subtitles : list Cue) :
  generate_srt_content subtitles = concat_blocks srt_block subtitles /\
  generate_srt_content [mk_cue 1 "00:00:01,000" "00:00:02,500" "Hello"] =
    "1" ++ LF ++ "00:00:01,000 --> 00:00:02,500" ++ LF ++
    "Hello" ++ LF ++ LF.
Proof.
  split; [|reflexivity].
  unfold generate_srt_content.
  now rewrite (fold_append_blocks srt_append srt_block srt_append_block).
Qed.

(** C6.  For every sequence of cues the VTT output is the header
    ["WEBVTT\n\n"] followed by the concatenation, cue by cue and in
    order, of the block [start " --> " end LF text LF LF], without index
    line; for the single cue [{"00:00:01,000", "00:00:02,500", "Hello"}]
    it is exactly ["WEBVTT\n\n00:00:01,000 --> 00:00:02,500\nHello\n\n"]. *)
Theorem vtt_is_header_and_blocks (subtitles : list Cue) :
  generate_vtt_content subtitles =
    ("WEBVTT" ++ LF ++ LF) ++ concat_blocks vtt_block subtitles /\
  generate_vtt_content [mk_cue 1 "00:00:01,000" "00:00:02,500" "Hello"] =
    "WEBVTT" ++ LF ++ LF ++
    "00:00:01,000 --> 00:00:02,500" ++ LF ++ "Hello" ++ LF ++ LF.
Proof.
  split; [|reflexivity].
  unfold generate_vtt_content.
  now rewrite (fold_append_blocks vtt_append vtt_block vtt_append_block).
Qed.

(** C7.  On the empty sequence of cues the SRT Serializer returns the
    empty string and the VTT Serializer returns exactly ["WEBVTT\n\n"]. *)
Theorem serializers_on_empty :
  generate_srt_content [] = "" /\
  generate_vtt_content [] = "WEBVTT" ++ LF ++ LF.
Proof. split; reflexivity. Qed.

(* ================================================================= *)
(** ** The timestamp over its whole range *)

Lemma length_map_chars (f : ascii -> ascii) (s : string) :
  length (map_chars f s) = length s.
Proof. induction s as [|c s IH]; simpl; [reflexivity | now rewrite IH]. Qed.

Lemma length_slice_to_long (n : nat) (s : string) :
  (n <= length s)%nat -> length (slice_to n s) = n.
Proof.
  revert s. induction n as [|n IH]; intros [|c s]; simpl; intros H;
    try reflexivity; try lia.
  rewrite IH by lia. reflexivity.
Qed.

Lemma slice_to_append_long (n : nat) (a b : string) :
  (n <= length a)%nat -> slice_to n (a ++ b) = slice_to n a.
Proof.
  revert a. induction n as [|n IH]; intros [|c a]; simpl; intros H;
    try reflexivity; try lia.
  rewrite IH by lia. reflexivity.
Qed.

Lemma slice_to_append_exact (a b : string) (n : nat) :
  slice_to (length a + n) (a ++ b) = a ++ slice_to n b.
Proof. induction a as [|c a IH]; simpl; [reflexivity | now rewrite IH]. Qed.

Lemma length_str_int_pos (z : Z) : (1 <= length (str_int z))%nat.
Proof.
  unfold str_int. destruct (Z.ltb_spec z 0) as [L | H]; [simpl; lia|].
  destruct (str_nonneg_fixed z H) as (k & Hk & _ & _ & ->).
  now rewrite length_fixed_digits.
Qed.

(** Between ten and ninety-nine, [str] is the two-digit field. *)
Lemma str_int_two_digits (h : Z) :
  10 <= h < 100 -> str_int h = fixed_digits 2 h.
Proof.
  intros H. unfold str_int.
  destruct (Z.ltb_spec h 0) as [L | _]; [lia|].
  destruct (str_nonneg_fixed h ltac:(lia)) as (k & Hk & Hlt & Hmin & ->).
  assert (k = 2%nat) as ->; [|reflexivity].
  destruct Hmin as [-> | Hmin].
  - change (10 ^ Z.of_nat 1) with 10 in Hlt. lia.
  - assert (10 ^ (Z.of_nat k - 1) < 10 ^ 2) as P
      by (change (10 ^ 2) with 100; lia).
    assert (Z.of_nat k - 1 < 2) as Q
      by (apply Z.pow_lt_mono_r_iff in P; lia).
    assert (k <> 1%nat); [|lia].
    intros ->. change (10 ^ Z.of_nat 1) with 10 in Hlt. lia.
Qed.

(** The duration's string for any offset: the day count when there is
    one, the clock reading of the day, the fraction when there is one. *)
Lemma timedelta_str_parts (x : Z) :
  timedelta_str (microseconds_to_delta x) =
  day_prefix (whole_days x) ++
  (str_int (day_hours x) ++ ":" ++ fixed_digits 2 (clock_minutes x)
     ++ ":" ++ fixed_digits 2 (clock_seconds x)) ++
  (if x mod 1000000 =? 0 then ""
   else "." ++ fixed_digits 6 (x mod 1000000)).
Proof.
  unfold timedelta_str, microseconds_to_delta, day_prefix.
  cbn [days seconds microseconds].
  replace (x / 1000000 / 86400) with (whole_days x)
    by (unfold whole_days; Z.to_euclidean_division_equations; lia).
  replace (x / 1000000 mod 86400 / 60 / 60) with (day_hours x)
    by (unfold day_hours; Z.to_euclidean_division_equations; lia).
  replace (x / 1000000 mod 86400 / 60 mod 60) with (clock_minutes x)
    by (unfold clock_minutes; Z.to_euclidean_division_equations; lia).
  replace (x / 1000000 mod 86400 mod 60) with (clock_seconds x)
    by (unfold clock_seconds; Z.to_euclidean_division_equations; lia).
  rewrite (format_0d_fixed 2 (clock_minutes x)),
    (format_0d_fixed 2 (clock_seconds x)).
  - assert (format_0d 6 (x mod 1000000) = fixed_digits 6 (x mod 1000000))
      as F.
    { apply format_0d_fixed; [lia|].
      change (10 ^ Z.of_nat 6) with 1000000.
      apply Z.mod_pos_bound; lia. }
    rewrite F.
    destruct (whole_days x =? 0); cbn [negb];
      destruct (x mod 1000000 =? 0); cbn [negb];
      rewrite ?append_nil_r, ?append_assoc; reflexivity.
  - lia.
  - change (10 ^ Z.of_nat 2) with 100. unfold clock_seconds.
    pose proof (Z.mod_pos_bound (x / 1000000) 60 ltac:(lia)). lia.
  - lia.
  - change (10 ^ Z.of_nat 2) with 100. unfold clock_minutes.
    pose proof (Z.mod_pos_bound (x / 60000000) 60 ltac:(lia)). lia.
Qed.

Lemma length_slice_to_min (n : nat) (s : string) :
  length (slice_to n s) = Nat.min n (length s).
Proof.
  revert s. induction n as [|n IH]; intros [|c s]; simpl; try reflexivity.
  now rewrite IH.
Qed.

Lemma length_day_prefix (d : Z) :
  (d = 0 /\ length (day_prefix d) = 0%nat) \/
  (d <> 0 /\ (7 <= length (day_prefix d))%nat).
Proof.
  unfold day_prefix. destruct (Z.eqb_spec d 0) as [E | N].
  - left. now split.
  - right. split; [exact N|].
    rewrite !length_append. pose proof (length_str_int_pos d).
    simpl. lia.
Qed.

(** The length of the timestamp, read off the parts of the duration's
    string. *)
Lemma length_subtitle_timestamp (x : Z) :
  length (subtitle_timestamp x) =
  Nat.min 11
    (length (day_prefix (whole_days x)) +
     (length (str_int (day_hours x)) + 6) +
     (if x mod 1000000 =? 0 then 0 else 7)).
Proof.
  unfold subtitle_timestamp. cbv zeta.
  rewrite length_slice_to_min, str_replace_dot_comma, length_map_chars.
  rewrite timedelta_str_parts, !length_append, !length_fixed_digits.
  f_equal. destruct (x mod 1000000 =? 0); simpl;
    rewrite ?length_fixed_digits; lia.
Qed.

Lemma day_hours_small (x : Z) :
  0 <= x < 86400000000 -> whole_days x = 0 /\ day_hours x = clock_hours x.
Proof.
  intros H. unfold whole_days, day_hours, clock_hours.
  split; Z.to_euclidean_division_equations; lia.
Qed.

(** The length of the timestamp of [x] microseconds, [x] not negative. *)
Lemma stored_length_cases (x : Z) :
  0 <= x ->
  (x mod 1000000 = 0 -> x < 36000000000 ->
   length (subtitle_timestamp x) = 7%nat) /\
  (x mod 1000000 = 0 -> 36000000000 <= x < 86400000000 ->
   length (subtitle_timestamp x) = 8%nat) /\
  (x mod 1000000 <> 0 \/ 86400000000 <= x ->
   length (subtitle_timestamp x) = 11%nat).
Proof.
  intros H0. rewrite length_subtitle_timestamp.
  pose proof (length_str_int_pos (day_hours x)) as Lh.
  repeat split.
  - intros Hf Hx.
    destruct (day_hours_small x ltac:(lia)) as [-> ->].
    rewrite Hf, str_int_digit
      by (unfold clock_hours; Z.to_euclidean_division_equations; lia).
    reflexivity.
  - intros Hf Hx.
    destruct (day_hours_small x ltac:(lia)) as [-> ->].
    rewrite Hf, str_int_two_digits
      by (unfold clock_hours; Z.to_euclidean_division_equations; lia).
    reflexivity.
  - intros [Hf | Hd].
    + destruct (Z.eqb_spec (x mod 1000000) 0) as [E | _]; [contradiction|].
      lia.
    + destruct (length_day_prefix (whole_days x)) as [[E _] | [_ L]].
      * unfold whole_days in E. Z.to_euclidean_division_equations; lia.
      * lia.
Qed.

Lemma append_inj_length (a a' b b' : string) :
  length a = length a' -> a ++ b = a' ++ b' -> a = a' /\ b = b'.
Proof.
  revert a'. induction a as [|c a IH]; intros [|c' a'] L E;
    try discriminate L.
  - now split.
  - cbn in L, E. injection E as -> E. injection L as L.
    destruct (IH a' L E) as [-> ->]. now split.
Qed.

Lemma string_cons_inj (c c' : ascii) (s s' : string) :
  String c s = String c' s' -> c = c' /\ s = s'.
Proof. intros E. injection E as -> ->. now split. Qed.

Lemma fixed_digits_inj (w : nat) (a b : Z) :
  0 <= a < 10 ^ Z.of_nat w ->
  0 <= b < 10 ^ Z.of_nat w ->
  fixed_digits w a = fixed_digits w b -> a = b.
Proof.
  intros Ha Hb E. apply (f_equal (decimal_value 0)) in E.
  rewrite !decimal_value_fixed, !Z.mod_small in E by assumption.
  lia.
Qed.

Lemma clock_fields_range (x : Z) :
  0 <= clock_minutes x < 10 ^ Z.of_nat 2 /\
  0 <= clock_seconds x < 10 ^ Z.of_nat 2 /\
  0 <= clock_millis x < 10 ^ Z.of_nat 3 /\
  0 <= clock_centis x < 10 ^ Z.of_nat 2.
Proof.
  change (10 ^ Z.of_nat 2) with 100. change (10 ^ Z.of_nat 3) with 1000.
  unfold clock_minutes, clock_seconds, clock_millis, clock_centis.
  repeat split; Z.to_euclidean_division_equations; lia.
Qed.

(** The clock fields put together again give the offset in whole
    milliseconds. *)
Lemma millis_of_fields (x : Z) :
  x / 1000 =
  ((clock_hours x * 60 + clock_minutes x) * 60 + clock_seconds x) * 1000
  + clock_millis x.
Proof.
  unfold clock_hours, clock_minutes, clock_seconds, clock_millis.
  Z.to_euclidean_division_equations; lia.
Qed.

(** Equal clock readings [H:MM:SS] have equal fields. *)
Lemma clock_reading_inj (x y : Z) (r r' : string) :
  0 <= x < 36000000000 ->
  0 <= y < 36000000000 ->
  String (digit_char (clock_hours x))
    (":" ++ fixed_digits 2 (clock_minutes x) ++
     ":" ++ fixed_digits 2 (clock_seconds x) ++ r) =
  String (digit_char (clock_hours y))
    (":" ++ fixed_digits 2 (clock_minutes y) ++
     ":" ++ fixed_digits 2 (clock_seconds y) ++ r') ->
  clock_hours x = clock_hours y /\
  clock_minutes x = clock_minutes y /\
  clock_seconds x = clock_seconds y /\
  r = r'.
Proof.
  intros Hx Hy E.
  destruct (clock_fields_range x) as (Mx & Sx & _).
  destruct (clock_fields_range y) as (My & Sy & _).
  assert (0 <= clock_hours x < 10) as Hhx
    by (unfold clock_hours; Z.to_euclidean_division_equations; lia).
  assert (0 <= clock_hours y < 10) as Hhy
    by (unfold clock_hours; Z.to_euclidean_division_equations; lia).
  apply string_cons_inj in E as [Eh E].
  apply (f_equal digit_value) in Eh.
  rewrite !digit_value_digit_char in Eh by assumption.
  cbn [append] in E. apply string_cons_inj in E as [_ E].
  apply append_inj_length in E as [Em E];
    [|now rewrite !length_fixed_digits].
  cbn [append] in E. apply string_cons_inj in E as [_ E].
  apply append_inj_length in E as [Es E];
    [|now rewrite !length_fixed_digits].
  apply fixed_digits_inj in Em, Es; try assumption.
  now repeat split.
Qed.

Lemma length_fraction_timestamp (x : Z) :
  0 <= x < 36000000000 ->
  x mod 1000000 <> 0 ->
  length (subtitle_timestamp x) = 11%nat.
Proof.
  intros Hx Hf. rewrite (fraction_timestamp x Hx Hf).
  cbn [length]. rewrite !length_append, !length_fixed_digits. reflexivity.
Qed.

(** Under ten hours, equal timestamps of two numbers of microseconds
    put them in the same millisecond. *)
Lemma stored_milliseconds_apart (x y : Z) :
  0 <= x < 36000000000 ->
  0 <= y < 36000000000 ->
  subtitle_timestamp x = subtitle_timestamp y ->
  x / 1000 = y / 1000.
Proof.
  intros Hx Hy E.
  destruct (clock_fields_range x) as (_ & _ & Lx & _).
  destruct (clock_fields_range y) as (_ & _ & Ly & _).
  rewrite (millis_of_fields x), (millis_of_fields y).
  destruct (Z.eq_dec (x mod 1000000) 0) as [Fx | Fx];
    destruct (Z.eq_dec (y mod 1000000) 0) as [Fy | Fy].
  - destruct (whole_timestamp x ltac:(lia) Fx) as (Tx & _).
    destruct (whole_timestamp y ltac:(lia) Fy) as (Ty & _).
    rewrite Tx, Ty in E.
    rewrite !str_int_digit in E
      by (unfold clock_hours; Z.to_euclidean_division_equations; lia).
    cbn [append] in E.
    replace (fixed_digits 2 (clock_seconds x))
      with (fixed_digits 2 (clock_seconds x) ++ "") in E
      by apply append_nil_r.
    replace (fixed_digits 2 (clock_seconds y))
      with (fixed_digits 2 (clock_seconds y) ++ "") in E
      by apply append_nil_r.
    apply (clock_reading_inj x y "" "" Hx Hy) in E as (-> & -> & -> & _).
    unfold clock_millis. Z.to_euclidean_division_equations; lia.
  - exfalso. apply (f_equal length) in E.
    destruct (whole_timestamp x ltac:(lia) Fx) as (_ & _ & L).
    rewrite (length_fraction_timestamp y Hy Fy) in E. lia.
  - exfalso. apply (f_equal length) in E.
    destruct (whole_timestamp y ltac:(lia) Fy) as (_ & _ & L).
    rewrite (length_fraction_timestamp x Hx Fx) in E. lia.
  - rewrite (fraction_timestamp x Hx Fx), (fraction_timestamp y Hy Fy) in E.
    apply (clock_reading_inj x y _ _ Hx Hy) in E as (-> & -> & -> & E).
    cbn [append] in E. apply string_cons_inj in E as [_ E].
    apply fixed_digits_inj in E; try assumption. lia.
Qed.

Lemma centis_field (x : Z) :
  x mod 1000000 / 10 / 10 / 10 / 10 = clock_centis x.
Proof. unfold clock_centis. Z.to_euclidean_division_equations; lia. Qed.

(** With two hour digits the recogniser finds only two digits after the
    comma and rejects. *)
Lemma pattern_two_fraction_digits (h1 h2 m1 m2 s1 s2 f1 f2 : ascii) :
  is_digit h1 = true -> is_digit h2 = true ->
  is_digit m1 = true -> is_digit m2 = true ->
  is_digit s1 = true -> is_digit s2 = true ->
  matches_timestamp_pattern
    (String h1 (String h2 (String ":" (String m1 (String m2 (String ":"
      (String s1 (String s2 (String ","
        (String f1 (String f2 ""))))))))))) = false.
Proof.
  intros Hh1 Hh2 Hm1 Hm2 Hs1 Hs2.
  unfold matches_timestamp_pattern, some_digits.
  repeat (cbn [and_then drop_digits one_char three_digits
               Ascii.eqb Bool.eqb andb];
          rewrite ?Hh1, ?Hh2, ?Hm1, ?Hm2, ?Hs1, ?Hs2;
          change (is_digit ":") with false;
          change (is_digit ",") with false).
  reflexivity.
Qed.

(** From ten hours up to one day and with a microsecond part, the
    timestamp of [x] microseconds is [HH:MM:SS,cc]. *)
Lemma stored_two_fraction_digits (x : Z) :
  36000000000 <= x < 86400000000 ->
  x mod 1000000 <> 0 ->
  subtitle_timestamp x =
    fixed_digits 2 (clock_hours x) ++ ":" ++
    fixed_digits 2 (clock_minutes x) ++ ":" ++
    fixed_digits 2 (clock_seconds x) ++ "," ++
    fixed_digits 2 (clock_centis x) /\
  matches_timestamp_pattern (subtitle_timestamp x) = false.
Proof.
  intros Hx Hf.
  assert (subtitle_timestamp x =
          fixed_digits 2 (clock_hours x) ++ ":" ++
          fixed_digits 2 (clock_minutes x) ++ ":" ++
          fixed_digits 2 (clock_seconds x) ++ "," ++
          fixed_digits 2 (clock_centis x)) as E.
  { unfold subtitle_timestamp. cbv zeta.
    rewrite timedelta_str_clock by lia.
    destruct (Z.eqb_spec (x mod 1000000) 0) as [E | _]; [contradiction|].
    rewrite str_int_two_digits
      by (unfold clock_hours; Z.to_euclidean_division_equations; lia).
    rewrite str_replace_dot_comma.
    cbn [fixed_digits append map_chars].
    rewrite !dot_to_comma_digit_char.
    change (dot_to_comma ":") with ":"%char.
    change (dot_to_comma ".") with ","%char.
    cbn [slice_to].
    rewrite <- (centis_field x). reflexivity. }
  split; [exact E|].
  rewrite E. cbn [fixed_digits append].
  apply pattern_two_fraction_digits; apply digit_char_mod.
Qed.

Lemma keep_without_dot (s : string) :
  all_chars (fun c => negb (Ascii.eqb c ".")) s = true ->
  map_chars dot_to_comma s = s.
Proof.
  induction s as [|c s IH]; simpl; [reflexivity|].
  intros H. apply andb_true_iff in H as [Hc Hs].
  rewrite IH by exact Hs. unfold dot_to_comma.
  destruct (Ascii.eqb c "."); [discriminate Hc | reflexivity].
Qed.

Lemma digits_without_dot (s : string) :
  all_chars is_digit s = true ->
  all_chars (fun c => negb (Ascii.eqb c ".")) s = true.
Proof.
  apply all_chars_weaken. intros c H.
  destruct (Ascii.eqb_spec c ".") as [-> | _];
    [discriminate H | reflexivity].
Qed.

Lemma str_int_all_digits (n : Z) :
  0 <= n -> all_chars is_digit (str_int n) = true.
Proof.
  intros H. unfold str_int.
  destruct (Z.ltb_spec n 0) as [L | _]; [lia|].
  destruct (str_nonneg_fixed n H) as (k & _ & _ & _ & ->).
  apply all_digits_fixed.
Qed.

(** What comes before the seconds in the duration's string of an offset
    of at least one day. *)
Lemma day_head_facts (x : Z) :
  86400000000 <= x ->
  let head := str_int (whole_days x) ++ " day" ++ plural (whole_days x) ++
              ", " ++ str_int (day_hours x) ++ ":" ++
              fixed_digits 2 (clock_minutes x) in
  (11 <= length head)%nat /\
  map_chars dot_to_comma head = head /\
  exists rest : string,
    timedelta_str (microseconds_to_delta x) = head ++ rest.
Proof.
  intros Hx head.
  assert (0 < whole_days x) as Hd
    by (unfold whole_days; Z.to_euclidean_division_equations; lia).
  assert (0 <= day_hours x) as Hh
    by (unfold day_hours; Z.to_euclidean_division_equations; lia).
  split; [|split].
  - unfold head. rewrite !length_append, length_fixed_digits.
    pose proof (length_str_int_pos (whole_days x)).
    pose proof (length_str_int_pos (day_hours x)).
    simpl. lia.
  - apply keep_without_dot. unfold head.
    rewrite !all_chars_append.
    rewrite (digits_without_dot (str_int (whole_days x)))
      by (apply str_int_all_digits; lia).
    rewrite (digits_without_dot (str_int (day_hours x)))
      by (apply str_int_all_digits; lia).
    rewrite (digits_without_dot (fixed_digits 2 (clock_minutes x)))
      by apply all_digits_fixed.
    unfold plural. destruct (Z.abs (whole_days x) =? 1); reflexivity.
  - rewrite timedelta_str_parts. unfold day_prefix, head.
    destruct (Z.eqb_spec (whole_days x) 0) as [E | _]; [lia|].
    eexists. rewrite !append_assoc. reflexivity.
Qed.

(** From one day on, the timestamp of [x] microseconds stops before the
    seconds. *)
Lemma stored_day_head (x y : Z) :
  86400000000 <= x ->
  x / 60000000 = y / 60000000 ->
  subtitle_timestamp x =
    slice_to 11
      (str_int (whole_days x) ++ " day" ++ plural (whole_days x) ++ ", " ++
       str_int (day_hours x) ++ ":" ++ fixed_digits 2 (clock_minutes x)) /\
  subtitle_timestamp y = subtitle_timestamp x.
Proof.
  intros Hx Q.
  assert (forall z : Z, 86400000000 <= z ->
            subtitle_timestamp z =
            slice_to 11
              (str_int (whole_days z) ++ " day" ++ plural (whole_days z) ++
               ", " ++ str_int (day_hours z) ++ ":" ++
               fixed_digits 2 (clock_minutes z))) as Head.
  { intros z Hz.
    destruct (day_head_facts z Hz) as (L & K & rest & E).
    unfold subtitle_timestamp. cbv zeta.
    rewrite str_replace_dot_comma, E, map_chars_append, K.
    now apply slice_to_append_long. }
  split; [now apply Head|].
  assert (86400000000 <= y) as Hy by (Z.to_euclidean_division_equations; lia).
  rewrite (Head x Hx), (Head y Hy).
  assert (whole_days y = whole_days x) as ->
    by (unfold whole_days; Z.to_euclidean_division_equations; lia).
  assert (day_hours y = day_hours x) as ->
    by (unfold day_hours; Z.to_euclidean_division_equations; lia).
  assert (clock_minutes y = clock_minutes x) as ->
    by (unfold clock_minutes; now rewrite Q).
  reflexivity.
Qed.

(** Down to minus one day, the timestamp of a negative number [x] of
    microseconds. *)
Lemma stored_negative_offset (x : Z) :
  - 86400000000 <= x < 0 ->
  exists r : string,
    subtitle_timestamp x = "-1 day, " ++ r /\
    length r = 3%nat /\
    r = slice_to 3 (str_int (day_hours x) ++ ":" ++
                    fixed_digits 2 (clock_minutes x)).
Proof.
  intros Hx.
  assert (whole_days x = -1) as Hd
    by (unfold whole_days; Z.to_euclidean_division_equations; lia).
  assert (0 <= day_hours x) as Hh
    by (unfold day_hours; Z.to_euclidean_division_equations; lia).
  set (head := str_int (day_hours x) ++ ":" ++
               fixed_digits 2 (clock_minutes x)).
  assert (4 <= length head)%nat as L.
  { unfold head. rewrite !length_append, length_fixed_digits.
    pose proof (length_str_int_pos (day_hours x)). simpl. lia. }
  assert (map_chars dot_to_comma head = head) as K.
  { apply keep_without_dot. unfold head. rewrite !all_chars_append.
    rewrite (digits_without_dot (str_int (day_hours x)))
      by (apply str_int_all_digits; lia).
    rewrite (digits_without_dot (fixed_digits 2 (clock_minutes x)))
      by apply all_digits_fixed.
    reflexivity. }
  exists (slice_to 3 head). split; [|split; [|reflexivity]].
  - unfold subtitle_timestamp. cbv zeta.
    rewrite str_replace_dot_comma, timedelta_str_parts, Hd.
    change (day_prefix (-1)) with "-1 day, ".
    rewrite map_chars_append.
    change (map_chars dot_to_comma "-1 day, ") with "-1 day, ".
    change 11%nat with (length "-1 day, " + 3)%nat.
    rewrite slice_to_append_exact. f_equal.
    replace (str_int (day_hours x) ++ ":" ++
             fixed_digits 2 (clock_minutes x) ++ ":" ++
             fixed_digits 2 (clock_seconds x))
      with (head ++ ":" ++ fixed_digits 2 (clock_seconds x))
      by (unfold head; now rewrite !append_assoc).
    rewrite append_assoc, map_chars_append, K.
    apply slice_to_append_long. lia.
  - apply length_slice_to_long. lia.
Qed.

(* ================================================================= *)
(** ** The timestamp of a float over its whole range *)

(** X1.  The timestamp has 7, 8 or 11 characters, by the value the
    duration type stores for the offset, which is the offset rounded to
    the nearest microsecond: for a stored value that is not negative, 7
    when it is a whole number of seconds under ten hours, 8 when it is a
    whole number of seconds from ten hours up to one day, and 11 when it
    has a microsecond part or reaches one day. *)
Theorem timestamp_length_cases (d : spec_float) (x : Z) :
  seconds_to_microseconds d = Some x ->
  0 <= x < 86400000000000000000 ->
  exists s : string,
    timestamp_formatter d = Some s /\
    (x mod 1000000 = 0 -> x < 36000000000 -> length s = 7%nat) /\
    (x mod 1000000 = 0 -> 36000000000 <= x < 86400000000 ->
     length s = 8%nat) /\
    (x mod 1000000 <> 0 \/ 86400000000 <= x -> length s = 11%nat).
Proof.
  intros C R.
  destruct (timestamp_formatter_stored d x C ltac:(lia)) as [_ ->].
  exists (subtitle_timestamp x). split; [reflexivity|].
  apply stored_length_cases. lia.
Qed.

Lemma timestamp_length_cases_witness :
  exists s : string,
    timestamp_formatter (S754_finite false 9007198354021067 (-53)) = Some s /\
    length s = 7%nat.
Proof.
  destruct (timestamp_length_cases
              (S754_finite false 9007198354021067 (-53)) 1000000
              ltac:(reflexivity) ltac:(lia)) as (s & E & L & _).
  exists s. split; [exact E | apply L; [reflexivity | lia]].
Defined.

(** X2.  Under ten hours the timestamp keeps, to the millisecond, the
    value the duration type stores for the offset: when two offsets get
    the same timestamp, their stored values, not negative and under ten
    hours, lie in the same millisecond.  The offsets themselves need
    not: 1.4999996 and 1.5 seconds are both stored as 1500000
    microseconds. *)
Theorem timestamps_tell_milliseconds_apart (d1 d2 : spec_float) (x y : Z) :
  seconds_to_microseconds d1 = Some x ->
  seconds_to_microseconds d2 = Some y ->
  0 <= x < 36000000000 ->
  0 <= y < 36000000000 ->
  timestamp_formatter d1 = timestamp_formatter d2 ->
  x / 1000 = y / 1000.
Proof.
  intros C1 C2 Hx Hy E.
  destruct (timestamp_formatter_stored d1 x C1 ltac:(lia)) as [_ E1].
  destruct (timestamp_formatter_stored d2 y C2 ltac:(lia)) as [_ E2].
  rewrite E1, E2 in E. injection E as E.
  now apply stored_milliseconds_apart.
Qed.

Lemma timestamps_tell_milliseconds_apart_witness :
  seconds_to_microseconds (S754_finite false 6755397639615893 (-52)) =
    Some 1500000 /\
  1500000 / 1000 = 1500999 / 1000.
Proof.
  split; [reflexivity|].
  apply (timestamps_tell_milliseconds_apart
           (S754_finite false 6755397639615893 (-52))
           (S754_finite false 6759898537083487 (-52)));
    [reflexivity | reflexivity | lia | lia | reflexivity].
Defined.

(** X3.  When the value the duration type stores for the offset is from
    ten hours up to one day and has a microsecond part, the timestamp
    has two hour digits and, the cut staying at 11 characters, only two
    fraction digits, the hundredths of the second: it is
    [HH:MM:SS,cc], which is not of the form
    digits ':' digits ':' digits ',' three digits. *)
Theorem two_fraction_digits_from_ten_hours (d : spec_float) (x : Z) :
  seconds_to_microseconds d = Some x ->
  36000000000 <= x < 86400000000 ->
  x mod 1000000 <> 0 ->
  exists s : string,
    timestamp_formatter d = Some s /\
    s = fixed_digits 2 (clock_hours x) ++ ":" ++
        fixed_digits 2 (clock_minutes x) ++ ":" ++
        fixed_digits 2 (clock_seconds x) ++ "," ++
        fixed_digits 2 (clock_centis x) /\
    matches_timestamp_pattern s = false.
Proof.
  intros C Hx Hf.
  destruct (timestamp_formatter_stored d x C ltac:(lia)) as [_ ->].
  exists (subtitle_timestamp x). split; [reflexivity|].
  now apply stored_two_fraction_digits.
Qed.

Lemma two_fraction_digits_from_ten_hours_witness :
  exists s : string,
    timestamp_formatter (S754_finite false 4947871044468736 (-37)) = Some s /\
    s = "10:00:00,50".
Proof.
  destruct (two_fraction_digits_from_ten_hours
              (S754_finite false 4947871044468736 (-37)) 36000500000
              ltac:(reflexivity) ltac:(lia) ltac:(discriminate))
    as (s & E & S & _).
  exists s. split; [exact E | rewrite S; reflexivity].
Defined.

(** X4.  When the value the duration type stores for the offset is one
    day or more, the timestamp is the first 11 characters of the day
    count, the hour and the minutes, cut before the seconds: two offsets
    whose stored values lie in the same minute get the same timestamp. *)
Theorem day_timestamps_hide_seconds (d1 d2 : spec_float) (x y : Z) :
  seconds_to_microseconds d1 = Some x ->
  seconds_to_microseconds d2 = Some y ->
  86400000000 <= x < 86400000000000000000 ->
  x / 60000000 = y / 60000000 ->
  timestamp_formatter d1 =
    Some (slice_to 11
            (str_int (whole_days x) ++ " day" ++ plural (whole_days x) ++
             ", " ++ str_int (day_hours x) ++ ":" ++
             fixed_digits 2 (clock_minutes x))) /\
  timestamp_formatter d2 = timestamp_formatter d1.
Proof.
  intros C1 C2 Hx Q.
  assert (86400000000 <= y < 86400000000000000000) as Hy
    by (Z.to_euclidean_division_equations; lia).
  destruct (timestamp_formatter_stored d1 x C1 ltac:(lia)) as [_ ->].
  destruct (timestamp_formatter_stored d2 y C2 ltac:(lia)) as [_ ->].
  destruct (stored_day_head x y ltac:(lia) Q) as [-> ->].
  now split.
Qed.

Lemma day_timestamps_hide_seconds_witness :
  timestamp_formatter (S754_finite false 6184752906240000 (-36)) =
    Some "1 day, 1:00" /\
  timestamp_formatter (S754_finite false 6188876074775441 (-36)) =
    timestamp_formatter (S754_finite false 6184752906240000 (-36)).
Proof.
  destruct (day_timestamps_hide_seconds
              (S754_finite false 6184752906240000 (-36))
              (S754_finite false 6188876074775441 (-36))
              90000000000 90059999999
              ltac:(reflexivity) ltac:(reflexivity)
              ltac:(lia) ltac:(reflexivity)) as [E C].
  split; [rewrite E; reflexivity | exact C].
Defined.

(** X5.  A negative offset is not refused.  When the value the duration
    type stores for it is negative, down to minus one day, the duration
    has the day count -1 and the timestamp is ["-1 day, "] followed by
    the first three characters of the clock reading of that day. *)
Theorem negative_offset_timestamp (d : spec_float) (x : Z) :
  seconds_to_microseconds d = Some x ->
  - 86400000000 <= x < 0 ->
  exists r : string,
    timestamp_formatter d = Some ("-1 day, " ++ r) /\
    length r = 3%nat /\
    r = slice_to 3 (str_int (day_hours x) ++ ":" ++
                    fixed_digits 2 (clock_minutes x)).
Proof.
  intros C Hx.
  destruct (timestamp_formatter_stored d x C ltac:(lia)) as [_ ->].
  destruct (stored_negative_offset x Hx) as (r & -> & L & R).
  exists r. now repeat split.
Qed.

Lemma negative_offset_timestamp_witness :
  exists r : string,
    timestamp_formatter (S754_finite true 4503599627370496 (-53)) =
      Some ("-1 day, " ++ r) /\
    length r = 3%nat.
Proof.
  destruct (negative_offset_timestamp
              (S754_finite true 4503599627370496 (-53)) (-500000)
              ltac:(reflexivity) ltac:(lia))
    as (r & E & L & _).
  exists r. split; [exact E | exact L].
Defined.

(* ================================================================= *)
(** ** Blank texts *)

Lemma lstrip_blank (s : string) :
  all_chars isspace s = true -> lstrip s = "".
Proof.
  induction s as [|c s IH]; simpl; [reflexivity|].
  intros H. apply andb_true_iff in H as [-> Hs]. now apply IH.
Qed.

Lemma strip_empty_iff (s : string) :
  strip s = "" <-> all_chars isspace s = true.
Proof.
  split.
  - intros E. destruct (strip_spec s) as (l & r & S & Al & Ar & _).
    rewrite E in S. cbn [append] in S.
    rewrite S, all_chars_append, Al, Ar. reflexivity.
  - intros H. unfold strip. now rewrite (lstrip_blank s H).
Qed.

(** X6.  A segment whose text is empty or made of whitespace only is not
    dropped: the cue at its position has the empty text, and a cue has
    the empty text in that case only. *)
Theorem blank_segment_gives_empty_cue
    (segs : list Segment) (i : nat) (seg : Segment) :
  nth_error segs i = Some seg ->
  exists c : Cue,
    nth_error (create_subtitle_timestamps segs) i = Some c /\
    (text c = "" <-> all_chars isspace (seg_text seg) = true).
Proof.
  intros H. exists (subtitle_entry (1 + Z.of_nat i) seg).
  unfold create_subtitle_timestamps.
  rewrite subtitle_loop_nth, H. cbn [option_map subtitle_entry text].
  split; [reflexivity | apply strip_empty_iff].
Qed.

Lemma blank_segment_gives_empty_cue_witness :
  exists c : Cue,
    nth_error (create_subtitle_timestamps
                 [mk_segment 0 1000000 "a"; mk_segment 1000000 2000000 "  "])
      1 = Some c /\
    text c = "".
Proof.
  destruct (blank_segment_gives_empty_cue
              [mk_segment 0 1000000 "a"; mk_segment 1000000 2000000 "  "]
              1%nat (mk_segment 1000000 2000000 "  ") eq_refl)
    as (c & N & B).
  exists c. split; [exact N | apply B; reflexivity].
Defined.

(* ================================================================= *)
(** ** Serializers and concatenation *)

Lemma concat_blocks_app (block : Cue -> string) (a b : list Cue) :
  concat_blocks block (a ++ b) =
  concat_blocks block a ++ concat_blocks block b.
Proof.
  induction a as [|c a IH]; cbn; [reflexivity|].
  unfold concat_blocks in IH. now rewrite IH, append_assoc.
Qed.

Lemma generate_srt_blocks (subtitles : list Cue) :
  generate_srt_content subtitles = concat_blocks srt_block subtitles.
Proof.
  unfold generate_srt_content.
  now rewrite (fold_append_blocks srt_append srt_block srt_append_block).
Qed.

Lemma generate_vtt_blocks (subtitles : list Cue) :
  generate_vtt_content subtitles =
  ("WEBVTT" ++ LF ++ LF) ++ concat_blocks vtt_block subtitles.
Proof.
  unfold generate_vtt_content.
  now rewrite (fold_append_blocks vtt_append vtt_block vtt_append_block).
Qed.

(** X7.  Serializing a concatenation: the SRT text of two cue lists one
    after the other is the SRT text of the first followed by the SRT
    text of the second; the VTT text is the VTT text of the first
    followed by the blocks of the second, so that the header is written
    once, at the start. *)
Theorem serializers_over_concatenation (a b : list Cue) :
  generate_srt_content (a ++ b) =
    generate_srt_content a ++ generate_srt_content b /\
  generate_vtt_content (a ++ b) =
    generate_vtt_content a ++ concat_blocks vtt_block b /\
  generate_vtt_content b =
    ("WEBVTT" ++ LF ++ LF) ++ concat_blocks vtt_block b.
Proof.
  rewrite !generate_srt_blocks, !generate_vtt_blocks, !concat_blocks_app.
  rewrite !append_assoc. repeat split.
Qed.

(** X8.  The SRT Serializer writes the text of a cue as it is: when the
    text of one cue holds a blank line and then the lines of a block, the
    output is that of two cues.  Two cue lists of different lengths can
    so have the same SRT text. *)
Theorem srt_text_is_not_escaped (pre post : list Cue) (c1 c2 : Cue) :
  generate_srt_content (pre ++ c1 :: c2 :: post) =
    generate_srt_content (pre ++ merged_cue c1 c2 :: post) /\
  List.length (pre ++ c1 :: c2 :: post) <>
    List.length (pre ++ merged_cue c1 c2 :: post).
Proof.
  split.
  - rewrite !generate_srt_blocks, !concat_blocks_app. f_equal.
    cbn [concat_blocks fold_right].
    unfold srt_block, merged_cue. cbn [index start end_ text].
    now rewrite !append_assoc.
  - rewrite !length_app. cbn [List.length]. lia.
Qed.

(* ================================================================= *)
(** ** The video test *)

Lemma endswith_unfold (s suffix : string) :
  endswith s suffix =
  String.eqb s suffix ||
  match s with
  | EmptyString => false
  | String _ s' => endswith s' suffix
  end.
Proof. destruct s; reflexivity. Qed.

(** [endswith] finds exactly the strings that are some prefix followed by
    the suffix. *)
Lemma endswith_spec (s suffix : string) :
  endswith s suffix = true <-> exists p : string, s = p ++ suffix.
Proof.
  split.
  - induction s as [|c s IH]; rewrite endswith_unfold; intros H;
      apply orb_true_iff in H as [H | H].
    + apply String.eqb_eq in H. exists "". now subst.
    + discriminate H.
    + apply String.eqb_eq in H. exists "". now subst.
    + destruct (IH H) as (p & ->). now exists (String c p).
  - intros (p & ->). induction p as [|c p IH]; rewrite endswith_unfold.
    + cbn [append]. now rewrite String.eqb_refl.
    + cbn [append]. rewrite IH. apply orb_true_r.
Qed.

Lemma append_inj_length_r (a a' b b' : string) :
  length b = length b' -> a ++ b = a' ++ b' -> a = a' /\ b = b'.
Proof.
  intros L E. apply append_inj_length; [|exact E].
  apply (f_equal length) in E. rewrite !length_append in E. lia.
Qed.

(** X9.  The upload is treated as a video by its extension, whatever the
    case of its letters: for a temporary path that ends with a
    four-character extension, the test of line 134 holds exactly when
    the extension in lower case is [.mp4], [.avi], [.mkv] or [.mov]. *)
Theorem video_test_is_by_extension (base ext : string) :
  length ext = 4%nat ->
  (handled_as_video (base ++ ext) = true <->
   In (str_lower ext) video_suffixes).
Proof.
  intros L. unfold handled_as_video, endswith_any, str_lower.
  rewrite map_chars_append, existsb_exists. split.
  - intros (v & Hv & E). apply endswith_spec in E as (p & E).
    apply append_inj_length_r in E as [_ E].
    + now rewrite E.
    + rewrite length_map_chars, L.
      cbn in Hv. destruct Hv as [<- | [<- | [<- | [<- | []]]]]; reflexivity.
  - intros Hv. exists (map_chars lower_char ext). split; [exact Hv|].
    apply endswith_spec. now exists (map_chars lower_char base).
Qed.

Lemma video_test_is_by_extension_witness :
  handled_as_video ("/tmp/tmpk3x9_a7q" ++ ".MP4") = true.
Proof.
  apply (video_test_is_by_extension "/tmp/tmpk3x9_a7q" ".MP4");
    [reflexivity | left; reflexivity].
Defined.

(* ================================================================= *)
(** ** From segments to subtitle text *)

Lemma blocks_of_subtitle_loop (block : Cue -> string)
    (seg_block : Z -> Segment -> string) :
  (forall i seg, block (subtitle_entry i seg) = seg_block i seg) ->
  forall (segs : list Segment) (i : Z),
    concat_blocks block (subtitle_loop i segs []) =
    numbered_blocks seg_block i segs.
Proof.
  intros B segs. induction segs as [|seg rest IH]; intros i.
  - reflexivity.
  - rewrite subtitle_loop_cons. cbn [concat_blocks fold_right numbered_blocks].
    unfold concat_blocks in IH. now rewrite IH, B.
Qed.

(** X10.  End to end: the SRT text made from a list of segments is, for
    each segment in order, its number counted from 1 on a line, the two
    timestamps around [" --> "] on a line, the stripped text on a line
    and an empty line; the VTT text is the header followed by the same
    without the numbers. *)
Theorem subtitle_text_of_segments (segs : list Segment) :
  generate_srt_content (create_subtitle_timestamps segs) =
    numbered_blocks srt_segment_block 1 segs /\
  generate_vtt_content (create_subtitle_timestamps segs) =
    ("WEBVTT" ++ LF ++ LF) ++
    numbered_blocks (fun _ => vtt_segment_block) 1 segs.
Proof.
  unfold create_subtitle_timestamps.
  rewrite generate_srt_blocks, generate_vtt_blocks.
  rewrite (blocks_of_subtitle_loop srt_block srt_segment_block),
    (blocks_of_subtitle_loop vtt_block (fun _ => vtt_segment_block));
    [split; reflexivity | reflexivity | reflexivity].
Qed.
